(** * Resume form (main_pro.py): profile store, skill derivation and skill filter

    A shallow embedding of the data and control flow of [main_pro.py]:
    the text extraction dispatch, the derivation of the [skills] field, the
    CSV backed profile store with its duplicate dialog, and the tolerant
    parser and filter of the second tab.

    Conventions of the embedding.
    - A Python [str] is a [string]; a character is a code point below 256.
    - A Python exception is a value of [exn] carried by [outcome]; only
      exceptions deriving from [Exception] are represented, the ones a bare
      [except Exception] clause catches.
    - Library code the script calls but does not contain (pathlib, the
      document loaders, the numeric inference of the CSV reader, the part of
      [eval] outside plain list literals) enters as parameters of a Section.
    - The CSV file is taken cell by cell, quoting removed; the rendering of
      the page is left out.
    - The file is absent or holds the header and rows; a file on which
      [pd.read_csv] raises (no bytes, no columns) is not represented.
    - [eval] of a cell is a function of its text within one parse, with a
      value or an [Exception] as outcome; a text that leaves the interpreter
      is not represented, and statements about two parses say which cells
      they cover. *)

From Stdlib Require Import Ascii String NArith ZArith.
From stdpp Require Import base list strings gmap sorting.

(** ** Exceptions and results *)

Inductive exn :=
  | ValueError (msg : string)
  | TypeError
  | NameError
  | SyntaxError
  | OtherError (name : string).

Inductive outcome (A : Type) :=
  | Ret (a : A)
  | Raise (e : exn).
Arguments Ret {A} a.
Arguments Raise {A} e.

#[global] Instance outcome_ret : MRet outcome := λ A a, Ret a.
#[global] Instance outcome_bind : MBind outcome := λ A B f m,
  match m with
  | Ret a => f a
  | Raise e => Raise e
  end.
#[global] Instance outcome_fmap : FMap outcome := λ A B f m,
  match m with
  | Ret a => Ret (f a)
  | Raise e => Raise e
  end.

(** [try: body except Exception: handler]. *)
Definition try_except {A} (body : outcome A) (handler : exn → outcome A) : outcome A :=
  match body with
  | Ret a => Ret a
  | Raise e => handler e
  end.

(** ** Python strings *)

Definition sq : ascii := "'"%char.
Definition dq : ascii := "034"%char.
Definition backslash : ascii := "\"%char.

(** [str.isspace] on one character: the white space that [str.strip()]
    removes. *)
Definition py_isspace (c : ascii) : bool :=
  let n := N_of_ascii c in
  ((9 <=? n) && (n <=? 13) || (28 <=? n) && (n <=? 32) || (n =? 133) || (n =? 160))%N.

Definition is_bracket (c : ascii) : bool :=
  Ascii.eqb c "["%char || Ascii.eqb c "]"%char.

Fixpoint lstrip_chars (p : ascii → bool) (s : string) : string :=
  match s with
  | String c r => if p c then lstrip_chars p r else s
  | EmptyString => EmptyString
  end.

Fixpoint rstrip_chars (p : ascii → bool) (s : string) : string :=
  match s with
  | String c r =>
      match rstrip_chars p r with
      | EmptyString => if p c then EmptyString else String c EmptyString
      | r' => String c r'
      end
  | EmptyString => EmptyString
  end.

(** [s.strip(chars)] for the character class [p]. *)
Definition strip_chars (p : ascii → bool) (s : string) : string :=
  rstrip_chars p (lstrip_chars p s).

(** [s.strip()]. *)
Definition py_strip (s : string) : string := strip_chars py_isspace s.

(** [s.split(sep)] for a one character separator: never empty, the empty
    string splits into one empty piece. *)
Fixpoint py_split (sep : ascii) (s : string) : list string :=
  match s with
  | EmptyString => [EmptyString]
  | String c r =>
      if Ascii.eqb c sep then EmptyString :: py_split sep r
      else match py_split sep r with
           | h :: t => String c h :: t
           | [] => [String c EmptyString]
           end
  end.

(** [[v.strip() for v in text.split(",") if v.strip()]]. *)
Definition comma_pieces (text : string) : list string :=
  py_strip <$> filter (λ v, py_strip v ≠ EmptyString) (py_split ","%char text).

(** [str.lower] on one character. *)
Definition py_lower_char (c : ascii) : ascii :=
  let n := N_of_ascii c in
  if ((65 <=? n) && (n <=? 90) || (192 <=? n) && (n <=? 222) && negb (n =? 215))%N
  then ascii_of_N (n + 32) else c.

Fixpoint py_lower (s : string) : string :=
  match s with
  | String c r => String (py_lower_char c) (py_lower r)
  | EmptyString => EmptyString
  end.

(** *** [repr] of a string and [str] of a list of strings *)

(** Characters that [repr] leaves as they are. *)
Definition py_isprintable (c : ascii) : bool :=
  let n := N_of_ascii c in
  ((32 <=? n) && (n <? 127) || (161 <=? n) && negb (n =? 173))%N.

Definition hex_digit (n : N) : ascii :=
  ascii_of_N (if (n <? 10)%N then 48 + n else 87 + n)%N.

Definition hex2 (c : ascii) : string :=
  let n := N_of_ascii c in
  String (hex_digit (n / 16)%N) (String (hex_digit (n mod 16)%N) EmptyString).

Definition escape_char (q c : ascii) : string :=
  if Ascii.eqb c q || Ascii.eqb c backslash then String backslash (String c EmptyString)
  else if Ascii.eqb c "009"%char then String backslash "t"
  else if Ascii.eqb c "010"%char then String backslash "n"
  else if Ascii.eqb c "013"%char then String backslash "r"
  else if py_isprintable c then String c EmptyString
  else String backslash (String "x"%char (hex2 c)).

Fixpoint escape_body (q : ascii) (s : string) : string :=
  match s with
  | String c r => escape_char q c +:+ escape_body q r
  | EmptyString => EmptyString
  end.

Fixpoint contains_char (c : ascii) (s : string) : bool :=
  match s with
  | String d r => Ascii.eqb d c || contains_char c r
  | EmptyString => false
  end.

(** The quote [repr] picks: double quotes only when the string holds a
    single quote and no double quote. *)
Definition repr_quote (s : string) : ascii :=
  if contains_char sq s && negb (contains_char dq s) then dq else sq.

Definition py_repr_str (s : string) : string :=
  let q := repr_quote s in
  String q (escape_body q s +:+ String q EmptyString).

Fixpoint join_with (sep : string) (l : list string) : string :=
  match l with
  | [] => EmptyString
  | [x] => x
  | x :: r => x +:+ sep +:+ join_with sep r
  end.

(** [str(l)] for a list of strings: the text a list cell gets in the CSV. *)
Definition py_str_list (l : list string) : string :=
  "[" +:+ join_with ", " (py_repr_str <$> l) +:+ "]".

(** *** The list literals [eval] is modelled on *)

Inductive lit_state :=
  | LStart
  | LOpen
  | LItem
  | LIn (q : ascii) (acc : string)
  | LAfter
  | LEnd.

Definition simple_escape (e : ascii) : option ascii :=
  if Ascii.eqb e backslash then Some backslash
  else if Ascii.eqb e sq then Some sq
  else if Ascii.eqb e dq then Some dq
  else if Ascii.eqb e "n"%char then Some "010"%char
  else if Ascii.eqb e "r"%char then Some "013"%char
  else if Ascii.eqb e "t"%char then Some "009"%char
  else None.

Definition hex_value (h : ascii) : option N :=
  let n := N_of_ascii h in
  if ((48 <=? n) && (n <=? 57))%N then Some (n - 48)%N
  else if ((97 <=? n) && (n <=? 102))%N then Some (n - 87)%N
  else if ((65 <=? n) && (n <=? 70))%N then Some (n - 55)%N
  else None.

Definition hex_pair (h1 h2 : ascii) : option ascii :=
  match hex_value h1, hex_value h2 with
  | Some a, Some b => Some (ascii_of_N (16 * a + b))
  | _, _ => None
  end.

Definition snoc (acc : string) (c : ascii) : string := acc +:+ String c EmptyString.

(** One pass over the text of a list display whose items are plain string
    literals, [['a', 'b']]: blanks between tokens, single or double quoted
    literals, the escapes backslash, quote, n, r, t and xhh.  Anything else
    (names, numbers, nested displays, prefixes, a trailing comma, other
    escapes) is not in this fragment and yields [None]. *)
Fixpoint scan_list (st : lit_state) (items : list string) (s : string) : option (list string) :=
  match s with
  | EmptyString => match st with LEnd => Some items | _ => None end
  | String c r =>
      match st with
      | LStart =>
          if Ascii.eqb c " "%char then scan_list LStart items r
          else if Ascii.eqb c "["%char then scan_list LOpen items r
          else None
      | LOpen =>
          if Ascii.eqb c " "%char then scan_list LOpen items r
          else if Ascii.eqb c "]"%char then scan_list LEnd items r
          else if Ascii.eqb c sq || Ascii.eqb c dq then scan_list (LIn c EmptyString) items r
          else None
      | LItem =>
          if Ascii.eqb c " "%char then scan_list LItem items r
          else if Ascii.eqb c sq || Ascii.eqb c dq then scan_list (LIn c EmptyString) items r
          else None
      | LIn q acc =>
          if Ascii.eqb c q then scan_list LAfter (items ++ [acc]) r
          else if Ascii.eqb c backslash then
            match r with
            | String e r' =>
                match simple_escape e with
                | Some d => scan_list (LIn q (snoc acc d)) items r'
                | None =>
                    if Ascii.eqb e "x"%char then
                      match r' with
                      | String h1 (String h2 r'') =>
                          match hex_pair h1 h2 with
                          | Some d => scan_list (LIn q (snoc acc d)) items r''
                          | None => None
                          end
                      | _ => None
                      end
                    else None
                end
            | EmptyString => None
            end
          else if py_isprintable c then scan_list (LIn q (snoc acc c)) items r
          else None
      | LAfter =>
          if Ascii.eqb c " "%char then scan_list LAfter items r
          else if Ascii.eqb c ","%char then scan_list LItem items r
          else if Ascii.eqb c "]"%char then scan_list LEnd items r
          else None
      | LEnd =>
          if Ascii.eqb c " "%char then scan_list LEnd items r else None
      end
  end.

Definition parse_list_literal (s : string) : option (list string) :=
  scan_list LStart [] s.

(** ** Python values met in a skills cell *)

Local Unset Elimination Schemes.
Inductive pyval :=
  | VNone
  | VInt (n : Z)
  | VStr (s : string)
  | VTuple (items : list pyval)
  | VList (items : list pyval).
Local Set Elimination Schemes.

(** Python's [==] on these values. *)
Fixpoint pyval_eqb (a b : pyval) : bool :=
  let fix all2 (xs ys : list pyval) : bool :=
    match xs, ys with
    | [], [] => true
    | x :: xs', y :: ys' => pyval_eqb x y && all2 xs' ys'
    | _, _ => false
    end in
  match a, b with
  | VNone, VNone => true
  | VInt m, VInt n => bool_decide (m = n)
  | VStr s, VStr t => bool_decide (s = t)
  | VTuple xs, VTuple ys => all2 xs ys
  | VList xs, VList ys => all2 xs ys
  | _, _ => false
  end.

(** [v in l]. *)
Definition py_in (v : pyval) (l : list pyval) : bool := existsb (pyval_eqb v) l.

(** A cell of a data frame column as the script sees it: a list object, the
    missing value NaN, a string, or another scalar (a number or a boolean the
    CSV reader inferred), the last one carried by its [str()]. *)
Inductive cell :=
  | CList (l : list pyval)
  | CNaN
  | CStr (s : string)
  | CScalar (shown : string).

(** ** The persisted table *)

(** One line of [resume_output.csv]: the text of each of the seventeen
    columns of [default_columns], CSV quoting removed. *)
Module CsvRow.
Record t := mk {
  fullname : string;
  email_id : string;
  phone_number : string;
  current_location : string;
  designation : string;
  technical_skills : string;
  interpersonal_skills : string;
  year_of_experience : string;
  current_ctc : string;
  current_company : string;
  expected_ctc : string;
  linkedin_url : string;
  github_url : string;
  portfolio_project_url : string;
  summary : string;
  certifications : string;
  skills : string
}.
End CsvRow.

#[global] Instance row_eq_dec : EqDecision CsvRow.t.
Proof. solve_decision. Defined.

Definition default_columns : list string :=
  [ "fullname"; "email_id"; "phone_number"; "current_location"; "designation";
    "technical_skills"; "interpersonal_skills"; "year_of_experience";
    "current_ctc"; "current_company"; "expected_ctc"; "linkedin_url";
    "github_url"; "portfolio_project_url"; "summary"; "certifications";
    "skills" ].

(** The file [CSV_FILE]: absent, or the header line followed by rows. *)
Definition store := option (list CsvRow.t).

(** A row of the frame [pd.read_csv] returns, with the two columns the
    script looks at. *)
Record df_row := mk_df_row {
  source : CsvRow.t;
  email_value : cell;
  skills_value : cell
}.

(** The texts the CSV reader takes for a missing value. *)
Definition na_values : list string :=
  [ ""; "#N/A"; "#N/A N/A"; "#NA"; "-1.#IND"; "-1.#QNAN"; "-NaN"; "-nan";
    "1.#IND"; "1.#QNAN"; "<NA>"; "N/A"; "NA"; "NULL"; "NaN"; "None"; "n/a";
    "nan"; "null" ].

Definition is_na (t : string) : bool := bool_decide (t ∈ na_values).

Definition bool_like (t : string) : bool :=
  bool_decide (t ∈ ["True"; "TRUE"; "true"; "False"; "FALSE"; "false"]).

(** ** The profile *)

(** Modelled from the spec: the nested skills record of [schema.Profile]
    (schema.py is not part of the sources); a field may be null. *)
Record tech_entry := mk_tech {
  programming_languages : option (list string);
  libraries_or_frameworks : option (list string);
  other_tools : option (list string)
}.

(** What [data.get("technical_skills")] can hold: nothing, one nested
    record, or a list of them (the shape the script indexes with [tech[0]]). *)
Inductive tech_field :=
  | TechNone
  | TechDict (e : tech_entry)
  | TechList (l : list tech_entry).

(** Modelled from the spec: the fields of [schema.Profile] listed in the data
    model; scalars are optional texts. *)
Record Profile := mk_profile {
  fullname : option string;
  email_id : option string;
  phone_number : option string;
  designation : option string;
  current_location : option string;
  technical_skills : tech_field;
  interpersonal_skills : option (list string);
  year_of_experience : option string;
  current_ctc : option string;
  current_company : option string;
  expected_ctc : option string;
  linkedin_url : option string;
  github_url : option string;
  portfolio_project_url : option string;
  summary : option string;
  certifications : option (list string)
}.

(** The dictionary [data] once [data["skills"]] is set, as kept in the session
    state under [resume_data]. *)
Record resume_data := mk_data {
  profile : Profile;
  skills : list string
}.

(** [x or []]. *)
Definition or_empty (x : option (list string)) : list string := default [] x.

(** [tech[0] if isinstance(tech, list) and len(tech) > 0 else {}]; the empty
    dictionary answers [None] to every [get]. *)
Definition tech0 (tech : tech_field) : tech_entry :=
  match tech with
  | TechList (e :: _) => e
  | _ => mk_tech None None None
  end.

Definition prog_langs (p : Profile) : list string :=
  or_empty (programming_languages (tech0 (technical_skills p))).
Definition frameworks (p : Profile) : list string :=
  or_empty (libraries_or_frameworks (tech0 (technical_skills p))).
Definition tools (p : Profile) : list string :=
  or_empty (other_tools (tech0 (technical_skills p))).

(** [list({*(prog_langs or []), *(frameworks or []), *(tools or [])})]: the
    elements of a set, in the order the set happens to iterate. *)
Definition all_skills (p : Profile) : list string :=
  elements (list_to_set (prog_langs p ++ frameworks p ++ tools p) : gset string).

(** The Convert step up to [st.session_state["resume_data"] = data]. *)
Definition convert (p : Profile) : resume_data :=
  mk_data p (all_skills p).

(** *** Cell texts written by [to_csv] *)

Definition scalar_text (x : option string) : string := default EmptyString x.

Definition list_text (x : option (list string)) : string :=
  match x with
  | Some l => py_str_list l
  | None => EmptyString
  end.

Definition opt_list_repr (x : option (list string)) : string :=
  match x with
  | Some l => py_str_list l
  | None => "None"
  end.

(** Modelled from the spec: the key order of the nested record follows the
    order the spec lists its three fields in. *)
Definition entry_repr (e : tech_entry) : string :=
  "{'programming_languages': " +:+ opt_list_repr (programming_languages e) +:+
  ", 'libraries_or_frameworks': " +:+ opt_list_repr (libraries_or_frameworks e) +:+
  ", 'other_tools': " +:+ opt_list_repr (other_tools e) +:+ "}".

Definition tech_text (t : tech_field) : string :=
  match t with
  | TechNone => EmptyString
  | TechDict e => entry_repr e
  | TechList l => "[" +:+ join_with ", " (entry_repr <$> l) +:+ "]"
  end.

(** The dictionary [row] of the save handler, each value as the text that
    [to_csv] writes for it. *)
Definition to_row (d : resume_data) : CsvRow.t :=
  let p := profile d in
  {| CsvRow.fullname := scalar_text (fullname p);
     CsvRow.email_id := scalar_text (email_id p);
     CsvRow.phone_number := scalar_text (phone_number p);
     CsvRow.current_location := scalar_text (current_location p);
     CsvRow.designation := scalar_text (designation p);
     CsvRow.technical_skills := tech_text (technical_skills p);
     CsvRow.interpersonal_skills := list_text (interpersonal_skills p);
     CsvRow.year_of_experience := scalar_text (year_of_experience p);
     CsvRow.current_ctc := scalar_text (current_ctc p);
     CsvRow.current_company := scalar_text (current_company p);
     CsvRow.expected_ctc := scalar_text (expected_ctc p);
     CsvRow.linkedin_url := scalar_text (linkedin_url p);
     CsvRow.github_url := scalar_text (github_url p);
     CsvRow.portfolio_project_url := scalar_text (portfolio_project_url p);
     CsvRow.summary := scalar_text (summary p);
     CsvRow.certifications := list_text (certifications p);
     CsvRow.skills := py_str_list (skills d) |}.

(** [series == email], one element: a missing value and an inferred number
    or boolean never equal a string, and nothing equals [None]. *)
Definition series_eq (v : cell) (email : option string) : bool :=
  match v, email with
  | CStr s, Some e => bool_decide (s = e)
  | _, _ => false
  end.

Inductive save_result :=
  | Inserted
  | AwaitingConfirmation (email : option string) (data : resume_data).

Inductive button :=
  | OverwriteExisting
  | Cancel.

(** A page or section a document loader returns. *)
Record document := mk_doc { page_content : option string }.

(** The rows of a file whose email cell is the text [e]. *)
Definition email_rows (e : string) (rows : list CsvRow.t) : list CsvRow.t :=
  filter (λ r, CsvRow.email_id r = e) rows.

(** ** The claims' own words, for comparison *)

Definition entry_lists (e : tech_entry) : list string :=
  or_empty (programming_languages e) ++ or_empty (libraries_or_frameworks e)
  ++ or_empty (other_tools e).

(** The three lists of the technical skills of a profile, read as the spec
    words them: every list the field holds counts. *)
Definition claimed_skill_sources (t : tech_field) : list string :=
  match t with
  | TechNone => []
  | TechDict e => entry_lists e
  | TechList l => l ≫= entry_lists
  end.

(** ** Sample library behaviour, used by the examples *)

(** [eval] on three texts: a tuple of two lists, two undefined names, and a
    text that is not an expression. *)
Definition sample_eval (text : string) : outcome pyval :=
  if bool_decide (text = "['Python'], ['SQL']")
  then Ret (VTuple [VList [VStr "Python"]; VList [VStr "SQL"]])
  else if bool_decide (text = "Python, SQL") then Raise NameError
  else Raise SyntaxError.

Definition is_digit (c : ascii) : bool :=
  let n := N_of_ascii c in ((48 <=? n) && (n <=? 57))%N.

Fixpoint all_digits (s : string) : bool :=
  match s with
  | String c r => is_digit c && all_digits r
  | EmptyString => true
  end.

(** Plain unsigned integers, the simplest texts the reader takes as numbers. *)
Definition sample_numeric_like (t : string) : bool :=
  negb (bool_decide (t = EmptyString)) && all_digits t.

Definition sample_scalar_str (col : list string) (t : string) : string := t.

Definition sample_reserialize (rows : list CsvRow.t) (r : CsvRow.t) : CsvRow.t := r.

Fixpoint after_last_dot (s : string) : option string :=
  match s with
  | EmptyString => None
  | String c r =>
      match after_last_dot r with
      | Some t => Some t
      | None => if Ascii.eqb c "."%char then Some s else None
      end
  end.

(** A stand-in for [Path(p).suffix], for the examples only: the text from the
    last dot on.  It is pathlib's suffix on the paths the examples use, whose
    last component has a dot after its first character and none at its end. *)
Definition sample_suffix (file_path : string) : string :=
  default EmptyString (after_last_dot file_path).

Definition sample_loader (file_path : string) : outcome (list document) :=
  Ret [mk_doc (Some "Jane Doe"); mk_doc None; mk_doc (Some EmptyString); mk_doc (Some "Python, SQL")].

Definition sample_entry (langs : list string) : tech_entry :=
  mk_tech (Some langs) None None.

Definition sample_profile (email : option string) (tech : tech_field) : Profile :=
  mk_profile (Some "Jane Doe") email None None None tech (Some ["Teamwork"])
    None None None None None None None None (Some ["Go"]).

Definition sample_data (email : option string) (tech : tech_field) : resume_data :=
  convert (sample_profile email tech).

Definition jane : resume_data :=
  sample_data (Some "a@x.com") (TechList [sample_entry ["Python"; "SQL"]]).

Definition bob : resume_data :=
  sample_data (Some "b@x.com") (TechList [sample_entry ["Go"]]).

Definition anonymous : resume_data :=
  sample_data None (TechList [sample_entry ["Go"]]).

Definition not_available : resume_data :=
  sample_data (Some "N/A") (TechList [sample_entry ["Go"]]).

Definition two_entries : Profile :=
  sample_profile (Some "a@x.com")
    (TechList [sample_entry ["Python"; "SQL"]; sample_entry ["Rust"]]).

Definition store_with_jane : store := Some [to_row jane].

(** Three rows as read from a file, the middle one with a skills cell that
    is not an expression. *)
Definition three_rows : list df_row :=
  [ mk_df_row (to_row jane) (CStr "a@x.com") (CStr "['Python', 'SQL']");
    mk_df_row (to_row bob) (CStr "b@x.com") (CStr "Python; SQL");
    mk_df_row (to_row bob) (CStr "c@x.com") (CStr "['Go']") ].

(** ** The Convert step: what it shows and leaves behind *)

(** What a run of the Convert button shows or asks, in order:
    [st.error] with one of its three messages, or a call of the model. *)
Inductive notice :=
  | ExtractionFailed (e : exn)
  | NoTextFound
  | LlmFailed (e : exn)
  | LlmAsked (text : string).


(** How a run of the Convert button ends: an exception leaves the script,
    the page reports that no text was found, the page stops on a failed call
    of the model, or the extracted data is kept as [resume_data]. *)
Inductive convert_result :=
  | Raised (e : exn)
  | NoText
  | Stopped (e : exn)
  | Extracted (data : resume_data).

Record convert_run := mk_run {
  result : convert_result;
  temp_files : gset string;
  trace : list notice
}.

(** [os.remove(path)] on the set of files that exist. *)
Definition os_remove (path : string) (fs : gset string) : outcome (gset string) :=
  if decide (path ∈ fs) then Ret (fs ∖ {[path]})
  else Raise (OtherError "FileNotFoundError").

(** A skill as the older cell formats can carry it: not empty, no white
    space at either end, no comma and no square bracket. *)
Definition plain_skill (n : string) : Prop :=
  n ≠ EmptyString
  ∧ py_strip n = n
  ∧ contains_char ","%char n = false
  ∧ contains_char "["%char n = false
  ∧ contains_char "]"%char n = false.

(** A skills cell whose parse cannot depend on what the script has bound
    when [eval] runs: a missing value, or the text of a list of string
    literals, which is what the save handler writes. *)
Definition literal_cell (x : cell) : Prop :=
  x = CNaN ∨ ∃ text l, x = CStr text ∧ parse_list_literal text = Some l.

(** The items of such a cell. *)
Definition literal_items (x : cell) : list string :=
  match x with
  | CStr text => default [] (parse_list_literal text)
  | _ => []
  end.

(** ** The skill selector *)

Definition str_item (v : pyval) : option string :=
  match v with
  | VStr s => Some s
  | _ => None
  end.

(** [sorted({s for ext in skill_data for s in ext})] for parsed cells whose
    items are all strings: the distinct items in the order of [<] on strings.
    [None] stands for a column with an item of another kind, which this model
    does not sort. *)
Definition all_skills_tab2 (skill_data : list (list pyval)) : option (list string) :=
  items ← mapM str_item (mjoin skill_data);
  Some (merge_sort String.le (elements (list_to_set items : gset string))).

(** A model that answers every text with the same profile. *)
Definition sample_llm (text : string) : outcome Profile :=
  Ret (sample_profile (Some "a@x.com") (TechList [sample_entry ["Python"; "SQL"]])).

(** A loader that finds no text on any page. *)
Definition blank_loader (file_path : string) : outcome (list document) :=
  Ret [mk_doc None; mk_doc (Some EmptyString)].

(** A loader that fails on a damaged file. *)
Definition failing_loader (file_path : string) : outcome (list document) :=
  Raise (OtherError "PdfReadError").

(** A second evaluation, which answers every text with the same list: what
    a run with other variables bound could give outside the list literals. *)
Definition other_eval (text : string) : outcome pyval :=
  Ret (VList [VStr "Go"]).

(** Three rows as read from a file written by the save handler, the middle
    one with an empty skills cell. *)
Definition literal_rows : list df_row :=
  [ mk_df_row (to_row jane) (CStr "a@x.com") (CStr "['Python', 'SQL']");
    mk_df_row (to_row bob) (CStr "b@x.com") CNaN;
    mk_df_row (to_row bob) (CStr "c@x.com") (CStr "['Go', 'SQL']") ].

Definition numeric_email : resume_data :=
  sample_data (Some "123") (TechList [sample_entry ["Go"]]).

(** ** The script *)

Section Script.

(** What the script takes from its libraries.
    - [eval_rest]: the result of [eval] on a text outside the list literals
      of [parse_list_literal].
    - [numeric_like]: the texts the CSV reader parses as numbers;
      [scalar_str col t]: [str()] of the number or boolean read for the text
      [t] in the column [col].
    - [reserialize rows r]: the line [to_csv] writes back for a row [r] read
      from a file holding [rows].
    - [suffix]: [Path(p).suffix]; the two document loaders. *)
Variable eval_rest : string → outcome pyval.
Variable numeric_like : string → bool.
Variable scalar_str : list string → string → string.
Variable reserialize : list CsvRow.t → CsvRow.t → CsvRow.t.
Variable suffix : string → string.
Variable PyPDFLoader_load : string → outcome (list document).
Variable Docx2txtLoader_load : string → outcome (list document).

(** [structured_llm.invoke(resume_text)], the model built just before it
    included. *)
Variable llm_invoke : string → outcome Profile.

(** *** Text extraction *)

Definition unsupported : exn :=
  ValueError "Unsupported file type. Only PDF and DOCX are supported.".

(** [[d.page_content for d in docs if getattr(d, "page_content", None)]]. *)
Definition page_texts (docs : list document) : list string :=
  omap (λ d, match page_content d with
             | Some t => if bool_decide (t = EmptyString) then None else Some t
             | None => None
             end) docs.

Definition blank_line : string := String "010"%char (String "010"%char EmptyString).

Definition load_resume_text (file_path : string) : outcome string :=
  let ext := py_lower (suffix file_path) in
  docs ← (if bool_decide (ext = ".pdf") then PyPDFLoader_load file_path
          else if bool_decide (ext = ".docx") then Docx2txtLoader_load file_path
          else Raise unsupported);
  Ret (join_with blank_line (page_texts docs)).

(** *** Converting an upload (first tab) *)

(** The body run by the button Convert, up to keeping [resume_data]:
    [upload_name] is the name of the uploaded file, [tmp_base] the path the
    temporary file gets before its suffix, [fs] the files that exist. *)
Definition convert_click (upload_name tmp_base : string) (fs : gset string) : convert_run :=
  let tmp_path := tmp_base +:+ suffix upload_name in
  let fs := {[tmp_path]} ∪ fs in
  match load_resume_text tmp_path with
  | Raise e =>
      match os_remove tmp_path fs with
      | Ret fs' => mk_run (Raised e) fs' [ExtractionFailed e]
      | Raise e' => mk_run (Raised e') fs [ExtractionFailed e]
      end
  | Ret resume_text =>
      let fs := match os_remove tmp_path fs with
                | Ret fs' => fs'
                | Raise _ => fs
                end in
      if bool_decide (py_strip resume_text = EmptyString)
      then mk_run NoText fs [NoTextFound]
      else
        match llm_invoke resume_text with
        | Raise e => mk_run (Stopped e) fs [LlmAsked resume_text; LlmFailed e]
        | Ret response => mk_run (Extracted (convert response)) fs [LlmAsked resume_text]
        end
  end.

(** *** Reading the table *)

(** The CSV reader turns a column into numbers or booleans when every cell
    that is present looks like one; otherwise the cells stay strings. *)
Definition inferred (col : list string) : bool :=
  let present := filter (λ t, is_na t = false) col in
  forallb numeric_like present || forallb bool_like present.

Definition read_cell (col : list string) (t : string) : cell :=
  if is_na t then CNaN
  else if inferred col then CScalar (scalar_str col t)
  else CStr t.

Definition read_column (col : list string) : list cell :=
  read_cell col <$> col.

Definition frame (rows : list CsvRow.t) : list df_row :=
  let emails := CsvRow.email_id <$> rows in
  let cells := CsvRow.skills <$> rows in
  (λ r, mk_df_row r (read_cell emails (CsvRow.email_id r)) (read_cell cells (CsvRow.skills r))) <$> rows.

(** [pd.read_csv(CSV_FILE)]. *)
Definition read_csv (st : store) : outcome (list df_row) :=
  match st with
  | Some rows => Ret (frame rows)
  | None => Raise (OtherError "FileNotFoundError")
  end.

(** *** Saving (first tab) *)

(** [df[df["email_id"] == email]]. *)
Definition existing (df : list df_row) (email : option string) : list df_row :=
  filter (λ r, series_eq (email_value r) email = true) df.

(** [pd.DataFrame(columns=default_columns).to_csv(CSV_FILE, index=False)]
    when the file is absent. *)
Definition ensure_csv (st : store) : store :=
  match st with
  | None => Some []
  | Some _ => st
  end.

(** [df_new.to_csv(CSV_FILE, mode="a", header=False, index=False)]. *)
Definition append_row (st : store) (r : CsvRow.t) : store :=
  Some (default [] st ++ [r]).

(** The body run by the button Save to Database, from the existence test
    of the file on. *)
Definition save (data_to_save : resume_data) (st : store) : outcome (save_result * store) :=
  let st := ensure_csv st in
  df ← read_csv st;
  let email := email_id (profile data_to_save) in
  if bool_decide (existing df email ≠ [])
  then Ret (AwaitingConfirmation email data_to_save, st)
  else Ret (Inserted, append_row st (to_row data_to_save)).

(** [show_overwrite_dialog] after a click, or closed without one. *)
Definition show_overwrite_dialog (click : option button)
    (email : option string) (data : resume_data) (st : store) : outcome store :=
  match click with
  | Some OverwriteExisting =>
      df ← read_csv st;
      let kept := filter (λ r, series_eq (email_value r) email = false) df in
      Ret (Some ((reserialize (default [] st) ∘ source <$> kept) ++ [to_row data]))
  | Some Cancel => Ret st
  | None => Ret st
  end.

(** A save followed by the answer given in the dialog, if one opens. *)
Definition save_then (click : option button) (data : resume_data) (st : store)
    : outcome (save_result * store) :=
  '(res, st') ← save data st;
  match res with
  | Inserted => Ret (res, st')
  | AwaitingConfirmation email pending =>
      st'' ← show_overwrite_dialog click email pending st'; Ret (res, st'')
  end.

(** A run of clicks on Save to Database, one profile after the other, each
    dialog that opens being cancelled. *)
Fixpoint saves (ds : list resume_data) (st : store) : outcome store :=
  match ds with
  | [] => Ret st
  | d :: ds' => '(_, st') ← save d st; saves ds' st'
  end.

(** *** Filtering (second tab) *)

Definition py_eval (text : string) : outcome pyval :=
  match parse_list_literal text with
  | Some l => Ret (VList (VStr <$> l))
  | None => eval_rest text
  end.

(** [eval(x)]: a type error unless [x] is a string. *)
Definition eval_cell (x : cell) : outcome pyval :=
  match x with
  | CStr text => py_eval text
  | _ => Raise TypeError
  end.

Definition split_strip (text : string) : list pyval := VStr <$> comma_pieces text.

Definition safe_eval_list (x : cell) : outcome (list pyval) :=
  match x with
  | CList l => Ret l
  | CNaN => Ret []
  | CStr text | CScalar text =>
      try_except
        (val ← eval_cell x;
         match val with
         | VList l => Ret l
         | _ => Ret (split_strip text)
         end)
        (λ _, try_except
                (Ret (split_strip (strip_chars is_bracket text)))
                (λ _, Ret []))
  end.

(** The list [safe_eval_list] returns ([[]] if it raised). *)
Definition parsed_skills (x : cell) : list pyval :=
  match safe_eval_list x with
  | Ret l => l
  | Raise _ => []
  end.

(** The parse as the spec words it, for comparison: a list as it is, a text
    that evaluates to a list as that list, anything else split at the commas
    after trimming it and removing the brackets at its ends. *)
Definition claimed_parse (x : cell) : list pyval :=
  match x with
  | CList l => l
  | CNaN => []
  | CStr text =>
      match py_eval text with
      | Ret (VList l) => l
      | _ => split_strip (strip_chars is_bracket (py_strip text))
      end
  | CScalar shown => split_strip (strip_chars is_bracket (py_strip shown))
  end.

(** [df["skills"].apply(lambda x: safe_eval_list(x))]. *)
Definition skill_data (df : list df_row) : outcome (list (list pyval)) :=
  mapM (λ r, safe_eval_list (skills_value r)) df.

(** [all(skill in safe_eval_list(skill_set) for skill in selected_skills)]. *)
Fixpoint all_selected (skill_set : cell) (selected_skills : list pyval) : outcome bool :=
  match selected_skills with
  | [] => Ret true
  | skill :: rest =>
      parsed ← safe_eval_list skill_set;
      if py_in skill parsed then all_selected skill_set rest else Ret false
  end.

(** [df[mask]]. *)
Definition select_rows (df : list df_row) (mask : list bool) : list df_row :=
  (filter (λ rb, rb.2 = true) (zip df mask)).*1.

Definition filtered_df (df : list df_row) (selected_skills : list pyval)
    : outcome (list df_row) :=
  if bool_decide (selected_skills = []) then Ret df
  else
    mask ← mapM (λ r, all_selected (skills_value r) selected_skills) df;
    Ret (select_rows df mask).


(** * Properties *)

(** ** Equality of values and membership *)

Lemma pyval_ind (P : pyval → Prop) :
  P VNone →
  (∀ n, P (VInt n)) →
  (∀ s, P (VStr s)) →
  (∀ l, Forall P l → P (VTuple l)) →
  (∀ l, Forall P l → P (VList l)) →
  ∀ v, P v.
Proof.
  intros HN HI HS HT HL. fix IH 1. intros [ | n | s | l | l].
  - exact HN.
  - apply HI.
  - apply HS.
  - apply HT. induction l as [ | x l IHl]; constructor; [apply IH | exact IHl].
  - apply HL. induction l as [ | x l IHl]; constructor; [apply IH | exact IHl].
Qed.

Lemma pyval_eqb_eq (a b : pyval) : pyval_eqb a b = true ↔ a = b.
Proof.
  revert b. induction a as [ | m | s | xs IH | xs IH] using pyval_ind;
    intros [ | n | t | ys | ys]; simpl; try (split; [discriminate | congruence]);
    try (split; [done | done]).
  - rewrite bool_decide_eq_true. split; congruence.
  - rewrite bool_decide_eq_true. split; congruence.
  - revert ys. induction IH as [ | x xs Hx _ IHxs]; intros [ | y ys]; simpl;
      try (split; [discriminate | congruence]); [done | ].
    rewrite andb_true_iff, Hx, IHxs. split; [intros [-> Heq]; congruence | ].
    intros [= -> ->]. done.
  - revert ys. induction IH as [ | x xs Hx _ IHxs]; intros [ | y ys]; simpl;
      try (split; [discriminate | congruence]); [done | ].
    rewrite andb_true_iff, Hx, IHxs. split; [intros [-> Heq]; congruence | ].
    intros [= -> ->]. done.
Qed.

#[global] Instance pyval_eq_dec : EqDecision pyval.
Proof.
  intros a b. destruct (pyval_eqb a b) eqn:E.
  - left. by apply pyval_eqb_eq.
  - right. intros H. apply pyval_eqb_eq in H. congruence.
Defined.

Lemma py_in_elem_of (v : pyval) (l : list pyval) : py_in v l = true ↔ v ∈ l.
Proof.
  unfold py_in. rewrite existsb_exists. split.
  - intros (x & Hx & Heq). apply pyval_eqb_eq in Heq. subst.
    by apply list_elem_of_In.
  - intros Hin. exists v. split; [by apply list_elem_of_In | by apply pyval_eqb_eq].
Qed.

Lemma elem_of_VStr_fmap (s : string) (l : list string) :
  VStr s ∈ (VStr <$> l) ↔ s ∈ l.
Proof.
  rewrite list_elem_of_fmap. split.
  - intros (t & [= ->] & Ht). done.
  - intros Hs. by exists s.
Qed.

(** ** Printing a list of strings and reading it back *)

Lemma append_assoc (a b c : string) : (a +:+ b) +:+ c = a +:+ (b +:+ c).
Proof. induction a as [ | x a IH]; [done | ]. change (String x ((a +:+ b) +:+ c) = String x (a +:+ (b +:+ c))). by rewrite IH. Qed.

Lemma append_nil_r (a : string) : a +:+ EmptyString = a.
Proof. induction a as [ | x a IH]; [done | ]. change (String x (a +:+ EmptyString) = String x a). by rewrite IH. Qed.

Lemma snoc_append (acc : string) (c : ascii) (r : string) :
  snoc acc c +:+ r = acc +:+ String c r.
Proof. unfold snoc. by rewrite append_assoc. Qed.

(** One escaped character is read back as the character it stands for. *)
Lemma scan_escape_char_sq (c : ascii) (acc : string) (items : list string) (tail : string) :
  scan_list (LIn sq acc) items (escape_char sq c +:+ tail)
  = scan_list (LIn sq (snoc acc c)) items tail.
Proof. destruct c as [[] [] [] [] [] [] [] []]; reflexivity. Qed.

Lemma scan_escape_char_dq (c : ascii) (acc : string) (items : list string) (tail : string) :
  scan_list (LIn dq acc) items (escape_char dq c +:+ tail)
  = scan_list (LIn dq (snoc acc c)) items tail.
Proof. destruct c as [[] [] [] [] [] [] [] []]; reflexivity. Qed.

Lemma repr_quote_cases (s : string) : repr_quote s = sq ∨ repr_quote s = dq.
Proof. unfold repr_quote. destruct (_ && _); auto. Qed.

Lemma scan_escape_body (q : ascii) (s acc : string) (items : list string) (tail : string) :
  q = sq ∨ q = dq →
  scan_list (LIn q acc) items (escape_body q s +:+ String q tail)
  = scan_list LAfter (items ++ [acc +:+ s]) tail.
Proof.
  intros Hq. revert acc. induction s as [ | c s IH]; intros acc.
  - rewrite append_nil_r. destruct Hq as [-> | ->]; reflexivity.
  - cbn [escape_body]. rewrite append_assoc.
    replace (acc +:+ String c s) with (snoc acc c +:+ s) by apply snoc_append.
    rewrite <- IH. destruct Hq as [-> | ->].
    + apply scan_escape_char_sq.
    + apply scan_escape_char_dq.
Qed.

(** A string literal printed by [repr], met where an item may start. *)
Lemma scan_repr_item (st : lit_state) (x : string) (items : list string) (tail : string) :
  st = LOpen ∨ st = LItem →
  scan_list st items (py_repr_str x +:+ tail) = scan_list LAfter (items ++ [x]) tail.
Proof.
  intros Hst. unfold py_repr_str.
  change (String (repr_quote x) (escape_body (repr_quote x) x +:+ String (repr_quote x) "") +:+ tail)
    with (String (repr_quote x) ((escape_body (repr_quote x) x +:+ String (repr_quote x) "") +:+ tail)).
  rewrite append_assoc.
  change (String (repr_quote x) "" +:+ tail) with (String (repr_quote x) tail).
  transitivity (scan_list (LIn (repr_quote x) "") items
                  (escape_body (repr_quote x) x +:+ String (repr_quote x) tail)).
  - destruct (repr_quote_cases x) as [-> | ->], Hst as [-> | ->]; reflexivity.
  - apply (scan_escape_body (repr_quote x) x "" items tail (repr_quote_cases x)).
Qed.

Lemma scan_repr_items (st : lit_state) (l : list string) (x : string) (items : list string) :
  st = LOpen ∨ st = LItem →
  scan_list st items (join_with ", " (py_repr_str <$> x :: l) +:+ "]")
  = Some (items ++ x :: l).
Proof.
  intros Hst. revert st x items Hst. induction l as [ | y l IH]; intros st x items Hst.
  - cbn [fmap list_fmap join_with]. rewrite scan_repr_item by done. reflexivity.
  - change (join_with ", " (py_repr_str <$> x :: y :: l))
      with (py_repr_str x +:+ ", " +:+ join_with ", " (py_repr_str <$> y :: l)).
    rewrite !append_assoc. rewrite scan_repr_item by done.
    change (scan_list LAfter (items ++ [x]) (", " +:+ join_with ", " (py_repr_str <$> y :: l) +:+ "]"))
      with (scan_list LItem (items ++ [x]) (join_with ", " (py_repr_str <$> y :: l) +:+ "]")).
    rewrite IH by auto. by rewrite <- app_assoc.
Qed.

(** Reading back what [str] printed for a list of strings. *)
Lemma parse_str_list (l : list string) : parse_list_literal (py_str_list l) = Some l.
Proof.
  unfold parse_list_literal, py_str_list. destruct l as [ | x l].
  - reflexivity.
  - change (scan_list LStart [] ("[" +:+ join_with ", " (py_repr_str <$> x :: l) +:+ "]"))
      with (scan_list LOpen [] (join_with ", " (py_repr_str <$> x :: l) +:+ "]")).
    rewrite scan_repr_items by auto. reflexivity.
Qed.

Lemma is_na_str_list (l : list string) : is_na (py_str_list l) = false.
Proof.
  unfold is_na. apply bool_decide_eq_false. unfold na_values, py_str_list.
  rewrite !elem_of_cons, elem_of_nil. intros H.
  repeat (destruct H as [H | H]; [discriminate H | ]). exact H.
Qed.

Lemma bool_like_str_list (l : list string) : bool_like (py_str_list l) = false.
Proof.
  unfold bool_like. apply bool_decide_eq_false. unfold py_str_list.
  rewrite !elem_of_cons, elem_of_nil. intros H.
  repeat (destruct H as [H | H]; [discriminate H | ]). exact H.
Qed.

(** ** The tolerant parser *)

Lemma py_eval_list_literal (text : string) (l : list string) :
  parse_list_literal text = Some l → py_eval text = Ret (VList (VStr <$> l)).
Proof. intros H. unfold py_eval. by rewrite H. Qed.

Lemma safe_eval_list_parsed (x : cell) : safe_eval_list x = Ret (parsed_skills x).
Proof.
  unfold parsed_skills. destruct x as [l | | text | shown]; try reflexivity.
  - cbn [safe_eval_list eval_cell]. destruct (py_eval text) as [[ | n | s | items | items] | e];
      reflexivity.
Qed.

Lemma mapM_ret_fmap {A B} (f : A → outcome B) (g : A → B) (l : list A) :
  (∀ a, f a = Ret (g a)) → mapM f l = Ret (g <$> l).
Proof.
  intros Hf. induction l as [ | a l IH]; [done | ].
  cbn [mapM]. rewrite Hf, IH. reflexivity.
Qed.

Lemma skill_data_parsed (df : list df_row) :
  skill_data df = Ret ((λ r, parsed_skills (skills_value r)) <$> df).
Proof.
  unfold skill_data. apply mapM_ret_fmap. intros r. apply safe_eval_list_parsed.
Qed.

Lemma all_selected_subseteq (x : cell) (selected : list pyval) :
  all_selected x selected = Ret (bool_decide (selected ⊆ parsed_skills x)).
Proof.
  induction selected as [ | skill rest IH].
  - cbn [all_selected]. f_equal; symmetry; apply bool_decide_eq_true;
      intros v Hv; by apply elem_of_nil in Hv.
  - cbn [all_selected]. rewrite safe_eval_list_parsed. cbn [mbind outcome_bind].
    destruct (py_in skill (parsed_skills x)) eqn:E.
    + rewrite IH. f_equal. apply py_in_elem_of in E.
      apply bool_decide_ext. split.
      * intros Hsub v Hv. apply elem_of_cons in Hv as [-> | Hv]; auto.
      * intros Hsub v Hv. apply Hsub. by right.
    + f_equal. symmetry. apply bool_decide_eq_false. intros Hsub.
      assert (py_in skill (parsed_skills x) = true) as Hin.
      { apply py_in_elem_of, Hsub. by left. }
      congruence.
Qed.

Lemma select_rows_fmap (g : df_row → bool) (df : list df_row) :
  select_rows df (g <$> df) = filter (λ r, g r = true) df.
Proof.
  unfold select_rows. induction df as [ | r df IH]; [done | ].
  cbn [fmap list_fmap zip zip_with]. rewrite filter_cons. cbn [snd].
  rewrite (filter_cons _ r df).
  destruct (decide (g r = true)) as [H | H]; cbn [fmap list_fmap fst]; by rewrite IH.
Qed.

(** ** Text extraction *)

(** C7. A path whose lower-cased suffix is neither .pdf nor .docx makes
    [load_resume_text] raise the unsupported-type error; for .pdf it returns the
    joined page texts of the PDF loader, for .docx those of the DOCX loader. *)
Theorem load_resume_text_by_extension (file_path : string) :
  let ext := py_lower (suffix file_path) in
  let joined := λ docs, join_with blank_line (page_texts docs) in
  (ext ≠ ".pdf" → ext ≠ ".docx" → load_resume_text file_path = Raise unsupported)
  ∧ (ext = ".pdf" → load_resume_text file_path = joined <$> PyPDFLoader_load file_path)
  ∧ (ext = ".docx" → load_resume_text file_path = joined <$> Docx2txtLoader_load file_path).
Proof.
  intros ext joined. unfold load_resume_text. fold ext. repeat split.
  - intros Hpdf Hdocx. by rewrite !bool_decide_eq_false_2.
  - intros Hpdf. rewrite bool_decide_eq_true_2 by done.
    by destruct (PyPDFLoader_load file_path).
  - intros Hdocx. rewrite bool_decide_eq_false_2 by (by rewrite Hdocx).
    rewrite bool_decide_eq_true_2 by done.
    by destruct (Docx2txtLoader_load file_path).
Qed.

(** ** The derived skills *)

Lemma all_skills_elem_of (p : Profile) (s : string) :
  s ∈ all_skills p ↔ s ∈ prog_langs p ∨ s ∈ frameworks p ∨ s ∈ tools p.
Proof.
  unfold all_skills. rewrite elem_of_elements, elem_of_list_to_set, !elem_of_app.
  tauto.
Qed.

(** C9. The saved skills come from the first entry of [technical_skills]
    alone: with a first entry [e] they are the set of its three lists whatever
    follows it, and they are empty when the list is empty or the field is not
    a list. *)
Theorem skills_from_first_entry_only (p : Profile) :
  (∀ e rest, technical_skills p = TechList (e :: rest) →
     skills (convert p) = elements (list_to_set (entry_lists e) : gset string))
  ∧ (technical_skills p = TechList [] → skills (convert p) = [])
  ∧ (∀ e, technical_skills p = TechDict e → skills (convert p) = [])
  ∧ (technical_skills p = TechNone → skills (convert p) = []).
Proof.
  unfold convert, all_skills, prog_langs, frameworks, tools. cbn [skills].
  repeat split.
  - intros e rest ->. reflexivity.
  - intros ->. cbn. apply elements_empty.
  - intros e ->. cbn. apply elements_empty.
  - intros ->. cbn. apply elements_empty.
Qed.

(** C2, as amended. The saved [skills] cell is the printed list of the
    derived skills; these have no repetition and are exactly the members of
    the three lists of the first technical skills entry; they depend on no
    other field of the profile. *)
Theorem saved_skills_union_of_first_entry (p : Profile) :
  let e := tech0 (technical_skills p) in
  let saved := skills (convert p) in
  CsvRow.skills (to_row (convert p)) = py_str_list saved
  ∧ NoDup saved
  ∧ (∀ s, s ∈ saved ↔
       s ∈ or_empty (programming_languages e)
       ∨ s ∈ or_empty (libraries_or_frameworks e)
       ∨ s ∈ or_empty (other_tools e))
  ∧ (∀ p', technical_skills p' = technical_skills p → skills (convert p') = saved).
Proof.
  intros e saved. subst e saved. cbn [convert skills]. repeat split.
  - unfold all_skills. apply NoDup_elements.
  - intros Hs. by apply all_skills_elem_of in Hs.
  - intros Hs. by apply all_skills_elem_of.
  - intros p' Hp'. unfold all_skills, prog_langs, frameworks, tools. by rewrite Hp'.
Qed.

(** ** The store *)

Lemma filter_fmap {A B} (f : A → B) (P : B → Prop) `{!∀ b, Decision (P b)} (l : list A) :
  filter P (f <$> l) = f <$> filter (λ a, P (f a)) l.
Proof.
  induction l as [ | a l IH]; [done | ].
  cbn [fmap list_fmap]. rewrite !filter_cons.
  destruct (decide (P (f a))); cbn [fmap list_fmap]; by rewrite IH.
Qed.

Lemma filter_none {A} (P : A → Prop) `{!∀ a, Decision (P a)} (l : list A) :
  (∀ a, a ∈ l → ¬ P a) → filter P l = [].
Proof.
  induction l as [ | a l IH]; intros Hall; [done | ].
  rewrite filter_cons_False by (apply Hall; by left).
  apply IH. intros b Hb. apply Hall. by right.
Qed.

(** The rows of the file that the duplicate test selects. *)
Definition matching (rows : list CsvRow.t) (email : option string) : list CsvRow.t :=
  filter (λ r, series_eq (read_cell (CsvRow.email_id <$> rows) (CsvRow.email_id r)) email = true) rows.

Lemma existing_frame (rows : list CsvRow.t) (email : option string) :
  source <$> existing (frame rows) email = matching rows email.
Proof.
  unfold existing, frame, matching. rewrite filter_fmap. cbn [email_value].
  rewrite <- list_fmap_compose. apply list_fmap_id.
Qed.

Lemma existing_nil_matching (rows : list CsvRow.t) (email : option string) :
  existing (frame rows) email = [] ↔ matching rows email = [].
Proof.
  rewrite <- existing_frame. split; [by intros -> | ].
  by intros H%fmap_nil_inv.
Qed.

Lemma series_eq_None (v : cell) : series_eq v None = false.
Proof. by destruct v. Qed.

Lemma existing_None (df : list df_row) : existing df None = [].
Proof.
  unfold existing. apply filter_none. intros r _. by rewrite series_eq_None.
Qed.

Lemma ensure_csv_rows (st : store) : ensure_csv st = Some (default [] st).
Proof. by destruct st. Qed.

Lemma save_unfold (d : resume_data) (st : store) :
  let rows := default [] st in
  let email := email_id (profile d) in
  save d st = Ret (if bool_decide (existing (frame rows) email ≠ [])
                   then (AwaitingConfirmation email d, Some rows)
                   else (Inserted, Some (rows ++ [to_row d]))).
Proof.
  intros rows email. unfold save. rewrite ensure_csv_rows. cbn [read_csv mbind outcome_bind].
  fold rows email. by destruct (bool_decide _).
Qed.

Lemma duplicate_needs_file (st : store) (email : option string) :
  existing (frame (default [] st)) email ≠ [] → st = Some (default [] st).
Proof. destruct st as [rows | ]; [done | ]. intros H. by destruct H. Qed.

(** C8. When [save] finds a duplicate it leaves the file as it was, and a
    click on Cancel in the dialog leaves it so again: after the cancel the
    store is the one before the save. *)
Theorem cancel_keeps_store (d pending : resume_data) (email : option string) (st st' : store) :
  save d st = Ret (AwaitingConfirmation email pending, st') →
  st' = st
  ∧ show_overwrite_dialog (Some Cancel) email pending st' = Ret st
  ∧ save_then (Some Cancel) d st = Ret (AwaitingConfirmation email pending, st).
Proof.
  intros Hsave. rewrite save_unfold in Hsave.
  destruct (decide (existing (frame (default [] st)) (email_id (profile d)) = []))
    as [Hnone | Hdup].
  - rewrite bool_decide_eq_false_2 in Hsave by (by intros H). discriminate Hsave.
  - rewrite bool_decide_eq_true_2 in Hsave by done. injection Hsave as <- <- <-.
    pose proof (duplicate_needs_file _ _ Hdup) as Hst. rewrite <- Hst.
    split; [done | ]. split; [done | ].
    unfold save_then. rewrite save_unfold, bool_decide_eq_true_2 by done.
    cbn. by rewrite <- Hst.
Qed.

(** C10. A profile without an email is never taken for a duplicate: [save]
    appends its row whatever the file holds, so a second save appends a second
    row with the same empty email cell. *)
Theorem save_without_email_appends (d : resume_data) (st : store) :
  email_id (profile d) = None →
  let rows := default [] st in
  save d st = Ret (Inserted, Some (rows ++ [to_row d]))
  ∧ save d (Some (rows ++ [to_row d])) = Ret (Inserted, Some (rows ++ [to_row d; to_row d]))
  ∧ CsvRow.email_id (to_row d) = EmptyString.
Proof.
  intros Hnone rows. rewrite !save_unfold, Hnone, !existing_None.
  rewrite !bool_decide_eq_false_2 by (by intros H).
  change (default [] (Some (rows ++ [to_row d]))) with (rows ++ [to_row d]).
  rewrite <- app_assoc. repeat split.
  unfold to_row. cbn. by rewrite Hnone.
Qed.

Lemma forallb_false_elem {A} (f : A → bool) (l : list A) (x : A) :
  x ∈ l → f x = false → forallb f l = false.
Proof.
  induction 1 as [x l | x y l Hx IH]; intros Hf; cbn [forallb].
  - by rewrite Hf.
  - rewrite IH by done. apply andb_false_r.
Qed.

(** A column holding one text that is neither missing, number-like nor
    boolean-like is read as strings. *)
Lemma inferred_false (col : list string) (t : string) :
  t ∈ col → is_na t = false → numeric_like t = false → bool_like t = false →
  inferred col = false.
Proof.
  intros Hin Hna Hnum Hbool. unfold inferred.
  assert (t ∈ filter (λ t, is_na t = false) col) as Hpresent
    by (by apply list_elem_of_filter).
  by rewrite (forallb_false_elem numeric_like _ t), (forallb_false_elem bool_like _ t).
Qed.

Lemma read_cell_text (col : list string) (t u : string) :
  t ∈ col → is_na t = false → numeric_like t = false → bool_like t = false →
  read_cell col u = if is_na u then CNaN else CStr u.
Proof.
  intros Hin Hna Hnum Hbool. unfold read_cell.
  by rewrite (inferred_false col t).
Qed.

Lemma matching_after_insert (rows : list CsvRow.t) (r : CsvRow.t) (e : string) :
  CsvRow.email_id r = e →
  is_na e = false → numeric_like e = false → bool_like e = false →
  matching rows (Some e) = [] →
  matching (rows ++ [r]) (Some e) = [r].
Proof.
  intros Hr Hna Hnum Hbool Hnew. unfold matching.
  assert (e ∈ CsvRow.email_id <$> rows ++ [r]) as Hin.
  { rewrite fmap_app, elem_of_app. right. rewrite <- Hr. by left. }
  rewrite filter_app. rewrite (filter_none _ rows).
  - rewrite filter_cons_True; [done | ].
    rewrite (read_cell_text _ e) by done. rewrite Hr, Hna.
    by apply bool_decide_eq_true.
  - intros r0 Hr0 Hmatch.
    rewrite (read_cell_text _ e) in Hmatch by done.
    destruct (is_na (CsvRow.email_id r0)) eqn:Hna0; [discriminate Hmatch | ].
    cbn [series_eq] in Hmatch. apply bool_decide_eq_true in Hmatch.
    assert (e ∈ CsvRow.email_id <$> rows) as Hold.
    { rewrite <- Hmatch. by apply list_elem_of_fmap_2. }
    assert (r0 ∈ matching rows (Some e)) as Hseen.
    { unfold matching. apply list_elem_of_filter. split; [ | done].
      rewrite (read_cell_text _ e) by done. rewrite Hna0, Hmatch.
      by apply bool_decide_eq_true. }
    rewrite Hnew in Hseen. by apply elem_of_nil in Hseen.
Qed.

(** Saving twice, for an email that is present and that the CSV reader hands
    back as the same string (not a missing-value text, not number-like, not
    boolean-like) and that no row carries yet: the first [save] inserts, the
    second one finds the row and reports [AwaitingConfirmation] without
    writing, and exactly one row of the file carries the email. *)
Theorem save_twice_keeps_one_row (d : resume_data) (st : store) (e : string) :
  email_id (profile d) = Some e →
  is_na e = false → numeric_like e = false → bool_like e = false →
  existing (frame (default [] st)) (Some e) = [] →
  let st1 := Some (default [] st ++ [to_row d]) in
  save d st = Ret (Inserted, st1)
  ∧ save d st1 = Ret (AwaitingConfirmation (Some e) d, st1)
  ∧ length (existing (frame (default [] st ++ [to_row d])) (Some e)) = 1.
Proof.
  intros Hemail Hna Hnum Hbool Hnew st1.
  assert (matching (default [] st ++ [to_row d]) (Some e) = [to_row d]) as Hone.
  { apply matching_after_insert; try done.
    - unfold to_row. cbn. by rewrite Hemail.
    - by apply existing_nil_matching. }
  assert (length (existing (frame (default [] st ++ [to_row d])) (Some e)) = 1) as Hlen.
  { rewrite <- (length_fmap source), existing_frame, Hone. done. }
  split; [ | split; [ | done]].
  - rewrite save_unfold, Hemail, Hnew. by rewrite bool_decide_eq_false_2 by (by intros H).
  - subst st1. rewrite save_unfold, Hemail.
    change (default [] (Some (default [] st ++ [to_row d]))) with (default [] st ++ [to_row d]).
    rewrite bool_decide_eq_true_2; [done | ].
    intros Hnil. by rewrite Hnil in Hlen.
Qed.

(** ** Parsing and filtering the saved skills *)

(** C5. The text [str] writes for a list of strings is read back by
    [safe_eval_list] as the same list, item by item; in particular the strings
    read are exactly the strings written. *)
Theorem skills_text_round_trip (l : list string) :
  ∃ parsed,
    safe_eval_list (CStr (py_str_list l)) = Ret parsed
    ∧ parsed = VStr <$> l
    ∧ (∀ s, VStr s ∈ parsed ↔ s ∈ l)
    ∧ (∀ v, v ∈ parsed → ∃ s, v = VStr s ∧ s ∈ l).
Proof.
  exists (VStr <$> l). split; [ | split; [done | split]].
  - cbn [safe_eval_list eval_cell].
    by rewrite (py_eval_list_literal _ l (parse_str_list l)).
  - intros s. apply elem_of_VStr_fmap.
  - intros v (s & -> & Hs)%list_elem_of_fmap. by exists s.
Qed.

(** The saved skills cell comes back from the CSV reader as the string that
    was written, whatever else the column holds, as long as the reader does
    not take that string for a number. *)
Lemma skills_cell_read_back (col : list string) (l : list string) :
  py_str_list l ∈ col → numeric_like (py_str_list l) = false →
  read_cell col (py_str_list l) = CStr (py_str_list l).
Proof.
  intros Hin Hnum.
  rewrite (read_cell_text col (py_str_list l) (py_str_list l) Hin
             (is_na_str_list l) Hnum (bool_like_str_list l)).
  by rewrite is_na_str_list.
Qed.


(** A cell that does not evaluate to a list contributes strings only. *)
Lemma fallback_pieces_are_strings (x : cell) :
  (∀ l, x ≠ CList l) → (∀ l, eval_cell x ≠ Ret (VList l)) →
  Forall (λ v, ∃ s, v = VStr s) (parsed_skills x).
Proof.
  intros Hx Heval. unfold parsed_skills.
  assert (∀ t, Forall (λ v, ∃ s, v = VStr s) (split_strip t)) as Hpieces.
  { intros t. unfold split_strip. apply Forall_fmap, Forall_true. intros s. by exists s. }
  destruct x as [l | | text | shown]; cbn [safe_eval_list].
  - by destruct (Hx l).
  - constructor.
  - cbn [eval_cell] in *. destruct (py_eval text) as [[ | n | s | items | items] | e];
      cbn; try apply Hpieces. by destruct (Heval items).
  - cbn. apply Hpieces.
Qed.

(** X17. The row a save appends behind any rows comes back from the CSV
    reader with its skills cell parsed to the skills that were saved (as long
    as the reader does not take the printed list for a number). *)
Lemma saved_skills_read_back (d : resume_data) (rows : list CsvRow.t) :
  numeric_like (py_str_list (skills d)) = false →
  ∃ r, last (frame (rows ++ [to_row d])) = Some r
       ∧ source r = to_row d
       ∧ safe_eval_list (skills_value r) = Ret (VStr <$> skills d).
Proof.
  intros Hnum. unfold frame. rewrite (fmap_app _ rows [to_row d]).
  rewrite (list_fmap_singleton _ (to_row d)), last_snoc.
  eexists. split; [done | ]. split; [done | ]. cbn [skills_value].
  change (CsvRow.skills (to_row d)) with (py_str_list (skills d)).
  rewrite skills_cell_read_back; [ | | done].
  - cbn [safe_eval_list eval_cell].
    by rewrite (py_eval_list_literal _ _ (parse_str_list (skills d))).
  - rewrite fmap_app, elem_of_app. right. by left.
Qed.

(** * Further properties *)

(** ** Saving *)

Lemma matching_elem_of (rows : list CsvRow.t) (email : option string) (r : CsvRow.t) :
  r ∈ matching rows email → r ∈ rows ∧ email = Some (CsvRow.email_id r).
Proof.
  unfold matching. rewrite list_elem_of_filter. intros [Heq Hin]. split; [done | ].
  unfold read_cell in Heq. destruct (is_na _); [done | ].
  destruct (inferred _); [done | ]. destruct email as [e | ]; [ | done].
  cbn [series_eq] in Heq. apply bool_decide_eq_true in Heq. by rewrite Heq.
Qed.

Lemma matching_text_email (rows : list CsvRow.t) (e : string) (r : CsvRow.t) :
  r ∈ rows → CsvRow.email_id r = e →
  is_na e = false → numeric_like e = false → bool_like e = false →
  r ∈ matching rows (Some e).
Proof.
  intros Hin Hr Hna Hnum Hbool. unfold matching. apply list_elem_of_filter.
  split; [ | done].
  rewrite (read_cell_text _ e); [ | rewrite <- Hr; by apply list_elem_of_fmap_2 | done..].
  rewrite Hr, Hna. by apply bool_decide_eq_true.
Qed.

Lemma existing_not_nil (rows : list CsvRow.t) (email : option string) (r : CsvRow.t) :
  r ∈ matching rows email → existing (frame rows) email ≠ [].
Proof.
  intros Hr Hnil. apply existing_nil_matching in Hnil.
  rewrite Hnil in Hr. by apply elem_of_nil in Hr.
Qed.

(** X1. When [save] returns, on a file that was absent or held the header
    and rows, the file is there afterwards, the rows it held come first and
    unchanged, and at most one row has been added. *)
Theorem save_keeps_rows (d : resume_data) (st st' : store) (res : save_result) :
  save d st = Ret (res, st') →
  ∃ rows',
    st' = Some rows'
    ∧ default [] st `prefix_of` rows'
    ∧ length rows' ≤ S (length (default [] st)).
Proof.
  rewrite save_unfold. destruct (bool_decide _); intros [= <- <-].
  - exists (default [] st). split; [done | ]. split; [done | lia].
  - exists (default [] st ++ [to_row d]).
    split; [done | ]. split; [by apply prefix_app_r | ].
    rewrite length_app. cbn. lia.
Qed.

(** X2. [save] reports a duplicate only when the profile has an email and a
    stored row carries exactly that text in its email cell; the data kept for
    the dialog is the data being saved, and nothing was written. *)
Theorem duplicate_report_is_sound (d pending : resume_data) (email : option string)
    (st st' : store) :
  save d st = Ret (AwaitingConfirmation email pending, st') →
  ∃ e r,
    email = Some e ∧ email_id (profile d) = Some e
    ∧ r ∈ default [] st ∧ CsvRow.email_id r = e
    ∧ pending = d ∧ st' = st.
Proof.
  intros Hsave. rewrite save_unfold in Hsave.
  destruct (decide (existing (frame (default [] st)) (email_id (profile d)) = []))
    as [Hnone | Hdup].
  - rewrite bool_decide_eq_false_2 in Hsave by (by intros H). discriminate Hsave.
  - rewrite bool_decide_eq_true_2 in Hsave by done. injection Hsave as <- <- <-.
    pose proof (duplicate_needs_file _ _ Hdup) as Hst.
    assert (matching (default [] st) (email_id (profile d)) ≠ []) as Hm
      by (by intros H%existing_nil_matching).
    destruct (matching (default [] st) (email_id (profile d))) as [ | r rest] eqn:E; [done | ].
    assert (r ∈ matching (default [] st) (email_id (profile d))) as Hr
      by (rewrite E; by left).
    apply matching_elem_of in Hr as [Hin He].
    exists (CsvRow.email_id r), r. by rewrite <- Hst.
Qed.

(** X3. For an email the CSV reader hands back as the same string (not a
    missing-value text, not number-like, not boolean-like), a stored row with
    that email cell always makes [save] report the duplicate and leave the
    file as it is, whatever the other rows hold. *)
Theorem duplicate_is_reported (d : resume_data) (rows : list CsvRow.t) (r : CsvRow.t)
    (e : string) :
  email_id (profile d) = Some e →
  is_na e = false → numeric_like e = false → bool_like e = false →
  r ∈ rows → CsvRow.email_id r = e →
  save d (Some rows) = Ret (AwaitingConfirmation (Some e) d, Some rows).
Proof.
  intros Hemail Hna Hnum Hbool Hin Hr. rewrite save_unfold, Hemail.
  change (default [] (Some rows)) with rows.
  rewrite bool_decide_eq_true_2; [done | ].
  apply (existing_not_nil rows (Some e) r). by apply matching_text_email.
Qed.

(** ** The overwrite dialog *)



(** X5. After a click on Overwrite Existing for a profile whose email the
    CSV reader hands back as the same string, the file holds the new row, and
    saving the same profile again reports the duplicate instead of inserting:
    an overwrite never makes room for a second row of that profile. *)
Theorem overwrite_then_save_finds_row (data : resume_data) (rows : list CsvRow.t)
    (e : string) :
  email_id (profile data) = Some e →
  is_na e = false → numeric_like e = false → bool_like e = false →
  ∃ rows',
    show_overwrite_dialog (Some OverwriteExisting) (Some e) data (Some rows)
    = Ret (Some rows')
    ∧ to_row data ∈ rows'
    ∧ save data (Some rows') = Ret (AwaitingConfirmation (Some e) data, Some rows').
Proof.
  intros Hemail Hna Hnum Hbool. eexists. split; [reflexivity | ].
  assert (∀ kept, to_row data ∈ kept ++ [to_row data]) as Hlast.
  { intros kept. rewrite elem_of_app. right. by left. }
  split; [apply Hlast | ].
  rewrite save_unfold, Hemail.
  match goal with
  | |- context [default [] (Some ?l)] => change (default [] (Some l)) with l
  end.
  rewrite bool_decide_eq_true_2; [done | ].
  apply (existing_not_nil _ (Some e) (to_row data)).
  apply matching_text_email; try done.
  unfold to_row. cbn. by rewrite Hemail.
Qed.

(** ** Converting an upload *)




Lemma page_texts_nil (docs : list document) :
  Forall (λ d, page_content d = None ∨ page_content d = Some EmptyString) docs →
  page_texts docs = [].
Proof.
  unfold page_texts. induction 1 as [ | d docs [Hd | Hd] _ IH]; [done | | ];
    cbn [omap list_omap]; rewrite Hd; cbn; by rewrite IH.
Qed.

(** X8. When the loader chosen by the suffix of the temporary file returns
    only pages without text (none at all, or pages whose content is missing
    or empty), Convert reports that no text was found and never asks the
    model. *)
Theorem convert_without_text (upload_name tmp_base : string) (fs : gset string)
    (docs : list document) :
  let tmp_path := tmp_base +:+ suffix upload_name in
  let r := convert_click upload_name tmp_base fs in
  (py_lower (suffix tmp_path) = ".pdf" ∧ PyPDFLoader_load tmp_path = Ret docs
   ∨ py_lower (suffix tmp_path) = ".docx" ∧ Docx2txtLoader_load tmp_path = Ret docs) →
  Forall (λ d, page_content d = None ∨ page_content d = Some EmptyString) docs →
  result r = NoText ∧ trace r = [NoTextFound].
Proof.
  intros tmp_path r Hload Hblank. subst r. unfold convert_click. fold tmp_path.
  assert (load_resume_text tmp_path = Ret EmptyString) as ->.
  { unfold load_resume_text. destruct Hload as [[Hext ->] | [Hext ->]].
    - rewrite bool_decide_eq_true_2 by done. cbn. by rewrite page_texts_nil.
    - rewrite bool_decide_eq_false_2 by (by rewrite Hext).
      rewrite bool_decide_eq_true_2 by done. cbn. by rewrite page_texts_nil. }
  done.
Qed.

(** ** Filtering *)

Lemma filter_all {A} (P : A → Prop) `{!∀ a, Decision (P a)} (l : list A) :
  (∀ a, a ∈ l → P a) → filter P l = l.
Proof.
  induction l as [ | a l IH]; intros Hall; [done | ].
  rewrite filter_cons_True by (apply Hall; by left).
  f_equal. apply IH. intros b Hb. apply Hall. by right.
Qed.

Lemma filtered_df_filter (df : list df_row) (selected : list pyval) :
  filtered_df df selected
  = Ret (filter (λ r, selected ⊆ parsed_skills (skills_value r)) df).
Proof.
  unfold filtered_df. destruct (decide (selected = [])) as [-> | Hsel].
  - rewrite bool_decide_eq_true_2 by done. f_equal. symmetry. apply filter_all.
    intros r _ v Hv. by apply elem_of_nil in Hv.
  - rewrite bool_decide_eq_false_2 by done.
    rewrite (mapM_ret_fmap _ (λ r, bool_decide (selected ⊆ parsed_skills (skills_value r))))
      by (intros r; apply all_selected_subseteq).
    cbn [mbind outcome_bind]. rewrite select_rows_fmap. f_equal.
    apply list_filter_iff. intros r. by rewrite bool_decide_eq_true.
Qed.

(** ** The skill selector *)

Lemma mapM_str_item (l : list pyval) (items : list string) :
  mapM str_item l = Some items ↔ l = VStr <$> items.
Proof.
  rewrite mapM_Some. split.
  - induction 1 as [ | v s l items Hv _ IH]; [done | ].
    destruct v; try discriminate Hv. injection Hv as ->. cbn. by rewrite IH.
  - intros ->. induction items as [ | s items IH]; constructor; done.
Qed.

Lemma elem_of_all_skills_tab2 (parsed : list (list pyval)) (opts : list string) (s : string) :
  all_skills_tab2 parsed = Some opts →
  s ∈ opts ↔ ∃ l, l ∈ parsed ∧ VStr s ∈ l.
Proof.
  unfold all_skills_tab2. destruct (mapM str_item (mjoin parsed)) as [items | ] eqn:E;
    [ | discriminate]. cbn. intros [= <-].
  apply mapM_str_item in E.
  rewrite merge_sort_Permutation, elem_of_elements, elem_of_list_to_set.
  rewrite <- elem_of_VStr_fmap, <- E. rewrite list_elem_of_join.
  split; intros (l & H1 & H2); exists l; done.
Qed.

Lemma parsed_skills_str_list (l : list string) :
  parsed_skills (CStr (py_str_list l)) = VStr <$> l.
Proof.
  unfold parsed_skills. cbn [safe_eval_list eval_cell].
  by rewrite (py_eval_list_literal _ l (parse_str_list l)).
Qed.

Lemma parsed_saved_rows (ds : list resume_data) :
  Forall (λ d, numeric_like (py_str_list (skills d)) = false) ds →
  (λ r, parsed_skills (skills_value r)) <$> frame (to_row <$> ds)
  = (λ d, VStr <$> skills d) <$> ds.
Proof.
  intros Hnum. unfold frame. rewrite <- !list_fmap_compose.
  apply list_fmap_ext. intros i d Hd. cbn.
  change (CsvRow.skills (to_row d)) with (py_str_list (skills d)).
  rewrite skills_cell_read_back.
  - apply parsed_skills_str_list.
  - apply (list_elem_of_fmap_2 (λ d, py_str_list (skills d))).
    by apply list_elem_of_lookup_2 in Hd.
  - rewrite Forall_forall in Hnum. apply Hnum. by apply list_elem_of_lookup_2 in Hd.
Qed.

(** X13. For a file that holds the rows of saved profiles, the skill selector
    of the second tab is built, and it offers exactly the skills derived for
    these profiles in the first tab (as long as the CSV reader takes none of
    the printed lists for a number). *)
Theorem saved_skills_are_offered (ds : list resume_data) :
  Forall (λ d, numeric_like (py_str_list (skills d)) = false) ds →
  ∃ parsed opts,
    skill_data (frame (to_row <$> ds)) = Ret parsed
    ∧ parsed = (λ d, VStr <$> skills d) <$> ds
    ∧ all_skills_tab2 parsed = Some opts
    ∧ (∀ s, s ∈ opts ↔ ∃ d, d ∈ ds ∧ s ∈ skills d).
Proof.
  intros Hnum.
  assert (mapM str_item (mjoin ((λ d, VStr <$> skills d) <$> ds))
          = Some (mjoin (skills <$> ds))) as Hitems.
  { apply mapM_str_item. induction ds as [ | d ds IH]; [done | ].
    cbn. rewrite fmap_app. f_equal. apply IH. by inversion Hnum. }
  do 2 eexists. split; [by rewrite skill_data_parsed, parsed_saved_rows | ].
  split; [done | ]. split.
  - unfold all_skills_tab2. rewrite Hitems. reflexivity.
  - intros s. rewrite merge_sort_Permutation, elem_of_elements, elem_of_list_to_set.
    rewrite list_elem_of_join. split.
    + intros (l & Hl & (d & -> & Hd)%list_elem_of_fmap). by exists d.
    + intros (d & Hd & Hs). exists (skills d). split; [done | ].
      by apply list_elem_of_fmap_2.
Qed.

(** ** The fallback of the tolerant parser *)

Lemma py_split_not_nil (sep : ascii) (s : string) : py_split sep s ≠ [].
Proof.
  induction s as [ | c r IH]; [done | ]. cbn [py_split].
  destruct (Ascii.eqb c sep); [done | ]. by destruct (py_split sep r).
Qed.

Lemma py_split_no_sep (sep : ascii) (s p : string) :
  p ∈ py_split sep s → contains_char sep p = false.
Proof.
  revert p. induction s as [ | c r IH]; intros p Hp.
  - apply list_elem_of_singleton in Hp. by subst.
  - cbn [py_split] in Hp. destruct (Ascii.eqb c sep) eqn:Hc.
    + apply elem_of_cons in Hp as [-> | Hp]; [done | by apply IH].
    + destruct (py_split sep r) as [ | h t] eqn:Hsplit.
      * by destruct (py_split_not_nil sep r).
      * apply elem_of_cons in Hp as [-> | Hp].
        -- cbn [contains_char]. rewrite Hc. apply IH. by left.
        -- apply IH. by right.
Qed.

Lemma lstrip_contains (p : ascii → bool) (c : ascii) (s : string) :
  contains_char c s = false → contains_char c (lstrip_chars p s) = false.
Proof.
  induction s as [ | d r IH]; [done | ]. intros H. cbn [lstrip_chars].
  destruct (p d); [ | done]. apply IH. cbn [contains_char] in H.
  by apply orb_false_iff in H as [_ H].
Qed.

Lemma rstrip_contains (p : ascii → bool) (c : ascii) (s : string) :
  contains_char c s = false → contains_char c (rstrip_chars p s) = false.
Proof.
  induction s as [ | d r IH]; [done | ]. intros H. cbn [contains_char] in H.
  apply orb_false_iff in H as [Hd Hr]. specialize (IH Hr). cbn [rstrip_chars].
  destruct (rstrip_chars p r) as [ | e r'].
  - destruct (p d); [done | ]. cbn [contains_char]. by rewrite Hd.
  - cbn [contains_char] in *. by rewrite Hd, IH.
Qed.

Lemma lstrip_head (p : ascii → bool) (s : string) :
  lstrip_chars p s = EmptyString
  ∨ ∃ c r, lstrip_chars p s = String c r ∧ p c = false.
Proof.
  induction s as [ | c r IH]; [by left | ]. cbn [lstrip_chars].
  destruct (p c) eqn:Hc; [exact IH | ]. right. by exists c, r.
Qed.

Lemma rstrip_cons (p : ascii → bool) (c : ascii) (r : string) :
  rstrip_chars p (String c r)
  = match rstrip_chars p r with
    | EmptyString => if p c then EmptyString else String c EmptyString
    | String d r' => String c (String d r')
    end.
Proof. cbn [rstrip_chars]. by destruct (rstrip_chars p r). Qed.

Lemma rstrip_idemp (p : ascii → bool) (s : string) :
  rstrip_chars p (rstrip_chars p s) = rstrip_chars p s.
Proof.
  induction s as [ | c r IH]; [done | ]. rewrite (rstrip_cons p c r).
  destruct (rstrip_chars p r) as [ | d r'] eqn:Hr.
  - destruct (p c) eqn:Hc; [done | ]. rewrite rstrip_cons. cbn. by rewrite Hc.
  - rewrite rstrip_cons, IH. done.
Qed.

Lemma strip_idemp (p : ascii → bool) (s : string) :
  strip_chars p (strip_chars p s) = strip_chars p s.
Proof.
  unfold strip_chars. destruct (lstrip_head p s) as [-> | (c & r & -> & Hc)]; [done | ].
  assert (∃ r', rstrip_chars p (String c r) = String c r') as [r' Hr'].
  { cbn [rstrip_chars]. destruct (rstrip_chars p r); [rewrite Hc | ]; by eexists. }
  rewrite Hr'. cbn [lstrip_chars]. rewrite Hc, <- Hr'. apply rstrip_idemp.
Qed.

(** X14. Every piece the fallback takes from a text is a string that is not
    empty, has no white space at either end and holds no comma; so a cell that
    does not evaluate to a list never yields an empty or padded skill. *)
Theorem fallback_pieces_clean (x : cell) :
  (∀ l, x ≠ CList l) → (∀ l, eval_cell x ≠ Ret (VList l)) →
  ∃ pieces,
    safe_eval_list x = Ret (VStr <$> pieces)
    ∧ Forall (λ piece, piece ≠ EmptyString
                       ∧ py_strip piece = piece
                       ∧ contains_char ","%char piece = false) pieces.
Proof.
  intros Hx Heval.
  assert (∀ t, Forall (λ piece, piece ≠ EmptyString ∧ py_strip piece = piece
                                ∧ contains_char ","%char piece = false)
                 (comma_pieces t)) as Hclean.
  { intros t. unfold comma_pieces. apply Forall_fmap, Forall_forall.
    intros v [Hv Hin]%list_elem_of_filter. cbn. split; [done | ]. split.
    - apply strip_idemp.
    - unfold py_strip, strip_chars. apply rstrip_contains, lstrip_contains.
      by apply (py_split_no_sep _ t). }
  destruct x as [l | | text | shown].
  - by destruct (Hx l).
  - exists []. split; [done | constructor].
  - cbn [safe_eval_list eval_cell] in *.
    destruct (py_eval text) as [[ | n | s | items | items] | e];
      try (eexists; split; [reflexivity | apply Hclean]).
    by destruct (Heval items).
  - eexists. split; [reflexivity | apply Hclean].
Qed.

Lemma py_split_app_sep (sep : ascii) (a t : string) :
  contains_char sep a = false →
  py_split sep (a +:+ String sep t) = a :: py_split sep t.
Proof.
  induction a as [ | c a IH]; intros Ha.
  - change (EmptyString +:+ String sep t) with (String sep t).
    cbn [py_split]. by rewrite Ascii.eqb_refl.
  - cbn [contains_char] in Ha. apply orb_false_iff in Ha as [Hc Ha].
    change (String c a +:+ String sep t) with (String c (a +:+ String sep t)).
    cbn [py_split]. by rewrite Hc, IH.
Qed.

Lemma py_split_whole (sep : ascii) (a : string) :
  contains_char sep a = false → py_split sep a = [a].
Proof.
  induction a as [ | c a IH]; intros Ha; [done | ].
  cbn [contains_char] in Ha. apply orb_false_iff in Ha as [Hc Ha].
  cbn [py_split]. by rewrite Hc, IH.
Qed.

Lemma comma_pieces_space (s : string) :
  comma_pieces (String " "%char s) = comma_pieces s.
Proof.
  unfold comma_pieces. cbn [py_split].
  change (Ascii.eqb " " ",") with false. cbv iota.
  destruct (py_split ","%char s) as [ | h t] eqn:Hsplit.
  - by destruct (py_split_not_nil ","%char s).
  - rewrite !filter_cons.
    change (py_strip (String " "%char h)) with (py_strip h).
    by destruct (decide (py_strip h ≠ EmptyString)).
Qed.

Lemma comma_pieces_join (names : list string) :
  Forall plain_skill names → comma_pieces (join_with ", " names) = names.
Proof.
  induction 1 as [ | n names (Hne & Hstrip & Hcomma & _) Hrest IH]; [done | ].
  destruct names as [ | m names].
  - cbn [join_with]. unfold comma_pieces. rewrite py_split_whole by done.
    rewrite filter_cons_True by (by rewrite Hstrip). cbn. by rewrite Hstrip.
  - change (join_with ", " (n :: m :: names))
      with (n +:+ String ","%char (String " "%char (join_with ", " (m :: names)))).
    unfold comma_pieces at 1. rewrite py_split_app_sep by done.
    rewrite filter_cons_True by (by rewrite Hstrip).
    cbn [fmap list_fmap]. rewrite Hstrip. f_equal.
    fold (comma_pieces (String " "%char (join_with ", " (m :: names)))).
    by rewrite comma_pieces_space.
Qed.

Lemma lstrip_none (p : ascii → bool) (s : string) :
  (∀ c, p c = true → contains_char c s = false) → lstrip_chars p s = s.
Proof.
  destruct s as [ | d r]; [done | ]. intros H. cbn [lstrip_chars].
  destruct (p d) eqn:Hd; [ | done]. specialize (H d Hd). cbn [contains_char] in H.
  by rewrite Ascii.eqb_refl in H.
Qed.

Lemma rstrip_none_app (p : ascii → bool) (s tail : string) :
  (∀ c, p c = true → contains_char c s = false) →
  rstrip_chars p tail = EmptyString →
  rstrip_chars p (s +:+ tail) = s.
Proof.
  intros H Htail. induction s as [ | d r IH]; [done | ].
  change (String d r +:+ tail) with (String d (r +:+ tail)). cbn [rstrip_chars].
  assert (p d = false) as Hd.
  { destruct (p d) eqn:Hd; [ | done]. specialize (H d Hd). cbn [contains_char] in H.
    by rewrite Ascii.eqb_refl in H. }
  rewrite IH.
  - destruct r; [by rewrite Hd | done].
  - intros c Hc. specialize (H c Hc). cbn [contains_char] in H.
    by apply orb_false_iff in H as [_ H].
Qed.

Lemma contains_char_app (c : ascii) (a b : string) :
  contains_char c (a +:+ b) = contains_char c a || contains_char c b.
Proof.
  induction a as [ | d a IH]; [done | ].
  change (String d a +:+ b) with (String d (a +:+ b)). cbn [contains_char].
  by rewrite IH, orb_assoc.
Qed.

Lemma join_no_bracket (names : list string) (c : ascii) :
  Forall plain_skill names → is_bracket c = true →
  contains_char c (join_with ", " names) = false.
Proof.
  intros Hnames Hc.
  assert (contains_char c ", " = false) as Hsep.
  { unfold is_bracket in Hc. apply orb_true_iff in Hc as [Hc | Hc];
      apply Ascii.eqb_eq in Hc; by subst. }
  assert (∀ n, plain_skill n → contains_char c n = false) as Hname.
  { intros n (_ & _ & _ & Hopen & Hclose). unfold is_bracket in Hc.
    apply orb_true_iff in Hc as [Hc | Hc]; apply Ascii.eqb_eq in Hc; by subst. }
  induction Hnames as [ | n names Hn Hrest IH]; [done | ].
  destruct names as [ | m names]; [by apply Hname | ].
  change (join_with ", " (n :: m :: names))
    with (n +:+ ", " +:+ join_with ", " (m :: names)).
  by rewrite !contains_char_app, (Hname n Hn), Hsep, IH.
Qed.

(** X15. The two older cell formats are read back item for item: for skills
    that are not empty, have no white space at their ends and hold no comma
    or square bracket, the text of the skills joined by a comma and a blank,
    bare or between square brackets, is parsed to these skills whenever its
    evaluation raises. *)
Theorem legacy_cell_parses (names : list string) (text : string) (e : exn) :
  Forall plain_skill names →
  text = join_with ", " names ∨ text = "[" +:+ join_with ", " names +:+ "]" →
  py_eval text = Raise e →
  safe_eval_list (CStr text) = Ret (VStr <$> names).
Proof.
  intros Hnames Htext Heval. cbn [safe_eval_list eval_cell]. rewrite Heval.
  cbn [mbind outcome_bind try_except]. unfold split_strip. do 2 f_equal.
  assert (strip_chars is_bracket text = join_with ", " names) as ->;
    [ | by apply comma_pieces_join].
  assert (∀ c, is_bracket c = true → contains_char c (join_with ", " names) = false)
    as Hplain by (intros c Hc; by apply join_no_bracket).
  unfold strip_chars. destruct Htext as [-> | ->].
  - rewrite lstrip_none by done.
    rewrite <- (append_nil_r (join_with ", " names)) at 1.
    by apply rstrip_none_app.
  - change ("[" +:+ join_with ", " names +:+ "]")
      with (String "["%char (join_with ", " names +:+ "]")).
    cbn [lstrip_chars]. change (is_bracket "[") with true. cbv iota.
    destruct (join_with ", " names) as [ | d r] eqn:Hjoin; [done | ].
    change (String d r +:+ "]") with (String d (r +:+ "]")). cbn [lstrip_chars].
    assert (is_bracket d = false) as ->.
    { destruct (is_bracket d) eqn:Hd; [ | done]. specialize (Hplain d Hd).
      cbn [contains_char] in Hplain. by rewrite Ascii.eqb_refl in Hplain. }
    change (String d (r +:+ "]")) with (String d r +:+ "]").
    by apply rstrip_none_app.
Qed.

(** ** One row per email over a run of saves *)

Lemma save_rows_cases (d : resume_data) (st : store) :
  ∃ res rows',
    save d st = Ret (res, Some rows')
    ∧ (rows' = default [] st
       ∨ rows' = default [] st ++ [to_row d]
         ∧ matching (default [] st) (email_id (profile d)) = []).
Proof.
  rewrite save_unfold.
  destruct (decide (existing (frame (default [] st)) (email_id (profile d)) = []))
    as [Hnone | Hdup].
  - rewrite bool_decide_eq_false_2 by (by intros H). do 2 eexists. split; [done | ].
    right. split; [done | ]. by apply existing_nil_matching.
  - rewrite bool_decide_eq_true_2 by done. do 2 eexists. split; [done | by left].
Qed.

Lemma email_rows_after_save (d : resume_data) (rows : list CsvRow.t) (e : string) :
  is_na e = false → numeric_like e = false → bool_like e = false →
  matching rows (email_id (profile d)) = [] →
  length (email_rows e rows) ≤ 1 →
  length (email_rows e (rows ++ [to_row d])) ≤ 1.
Proof.
  intros Hna Hnum Hbool Hnew Hone. unfold email_rows in *.
  rewrite filter_app, length_app, filter_cons, filter_nil.
  destruct (decide (CsvRow.email_id (to_row d) = e)) as [Hd | Hd]; [ | cbn; lia].
  assert (email_id (profile d) = Some e) as Hemail.
  { unfold to_row in Hd. cbn in Hd.
    destruct (email_id (profile d)) as [e0 | ]; cbn in Hd; subst; [done | ].
    discriminate Hna. }
  rewrite Hemail in Hnew.
  rewrite (filter_none (λ r, CsvRow.email_id r = e) rows); [cbn; lia | ].
  intros r Hr He.
  assert (r ∈ matching rows (Some e)) as Hseen by (by apply matching_text_email).
  rewrite Hnew in Hseen. by apply elem_of_nil in Hseen.
Qed.

(** X16. Over any run of saves, from no file or from a file that holds at
    most one row with the email cell [e], the file never comes to hold two
    rows with that email cell, for every email text [e] the CSV reader hands
    back as the same string (not a missing-value text, not number-like, not
    boolean-like); every save of the run returns, the rows already there stay
    first, and at most one row per save is added. *)
Theorem saves_keep_one_row_per_email (ds : list resume_data) (st : store) (e : string) :
  is_na e = false → numeric_like e = false → bool_like e = false →
  length (email_rows e (default [] st)) ≤ 1 →
  ∃ st',
    saves ds st = Ret st'
    ∧ length (email_rows e (default [] st')) ≤ 1
    ∧ default [] st `prefix_of` default [] st'
    ∧ length (default [] st') ≤ length (default [] st) + length ds.
Proof.
  intros Hna Hnum Hbool. revert st. induction ds as [ | d ds IH]; intros st Hone.
  - exists st. split; [done | ]. split; [done | ]. split; [done | cbn; lia].
  - cbn [saves].
    destruct (save_rows_cases d st) as (res & rows' & -> & Hcase).
    cbn [mbind outcome_bind].
    destruct Hcase as [-> | [-> Hnew]].
    + destruct (IH (Some (default [] st)) Hone) as (st' & Hrun & H1 & H2 & H3).
      change (default [] (Some (default [] st))) with (default [] st) in H2, H3.
      exists st'. split; [done | ]. split; [done | ]. split; [done | ].
      cbn [length]. lia.
    + destruct (IH (Some (default [] st ++ [to_row d]))) as (st' & Hrun & H1 & H2 & H3).
      { by apply email_rows_after_save. }
      change (default [] (Some (default [] st ++ [to_row d])))
        with (default [] st ++ [to_row d]) in H2, H3.
      exists st'. split; [done | ]. split; [done | ]. split.
      * etrans; [ | exact H2]. by apply prefix_app_r.
      * rewrite length_app in H3. cbn [length] in *. lia.
Qed.

End Script.

(** * Frames of list literals, run after run

    A run of the second tab evaluates a skills cell with whatever the script
    has bound at that point, so two runs, or the two parses of one run (the
    option list and the filter), may evaluate one text differently.  The
    statements below give each parse an evaluation of its own and hold for
    frames whose skills cells are missing values or list literals. *)

Lemma parsed_literal_cell (ev : string → outcome pyval) (x : cell) :
  literal_cell x → parsed_skills ev x = VStr <$> literal_items x.
Proof.
  intros [-> | (text & l & -> & Hl)]; [done | ].
  unfold parsed_skills, literal_items. cbn [safe_eval_list eval_cell].
  by rewrite (py_eval_list_literal ev text l Hl), Hl.
Qed.

Lemma filter_ext_Forall {A} (P Q R : A → Prop) `{!∀ a, Decision (P a)}
    `{!∀ a, Decision (Q a)} (l : list A) :
  Forall R l → (∀ a, R a → P a ↔ Q a) → filter P l = filter Q l.
Proof.
  intros Hl Hiff. induction Hl as [ | a l Ha _ IH]; [done | ].
  rewrite !filter_cons, IH.
  destruct (decide (P a)) as [Hp | Hp], (decide (Q a)) as [Hq | Hq]; try done.
  - by apply Hiff in Hp.
  - by apply Hiff in Hq.
Qed.

Lemma filtered_literal (ev : string → outcome pyval) (df : list df_row)
    (selected : list pyval) :
  Forall (λ r, literal_cell (skills_value r)) df →
  filtered_df ev df selected
  = Ret (filter (λ r, selected ⊆ VStr <$> literal_items (skills_value r)) df).
Proof.
  intros Hdf. rewrite filtered_df_filter. f_equal.
  apply (filter_ext_Forall _ _ _ df Hdf). intros r Hr.
  by rewrite (parsed_literal_cell ev _ Hr).
Qed.

(** X9. On a frame whose skills cells are missing values or list literals,
    the filter only drops rows: its result is a part of the frame in the order
    of the frame, and a later run with further skills selected gives a part of
    the earlier result, never a row more. *)
Theorem filter_narrows (ev1 ev2 : string → outcome pyval) (df : list df_row)
    (selected more : list pyval) :
  Forall (λ r, literal_cell (skills_value r)) df →
  ∃ rows rows',
    filtered_df ev1 df selected = Ret rows
    ∧ filtered_df ev2 df (selected ++ more) = Ret rows'
    ∧ rows `sublist_of` df
    ∧ rows' `sublist_of` rows
    ∧ length rows' ≤ length rows.
Proof.
  intros Hdf. do 2 eexists. rewrite !filtered_literal by done.
  split; [done | ]. split; [done | ]. split; [apply sublist_filter | ].
  assert (filter (λ r, selected ++ more ⊆ VStr <$> literal_items (skills_value r)) df
          `sublist_of` filter (λ r, selected ⊆ VStr <$> literal_items (skills_value r)) df)
    as Hsub.
  { rewrite <- (list_filter_filter_l
                  (λ r, selected ++ more ⊆ VStr <$> literal_items (skills_value r))
                  (λ r, selected ⊆ VStr <$> literal_items (skills_value r))).
    - apply sublist_filter.
    - intros r Hr v Hv. apply Hr, elem_of_app. by left. }
  split; [exact Hsub | by apply sublist_length].
Qed.

(** X10. On a frame whose skills cells are missing values or list literals,
    only the set of selected skills matters: two runs whose selections have
    the same members, in any order and with any repetition, give the same
    rows. *)
Theorem filter_ignores_order (ev1 ev2 : string → outcome pyval) (df : list df_row)
    (selected selected' : list pyval) :
  Forall (λ r, literal_cell (skills_value r)) df →
  (∀ v, v ∈ selected ↔ v ∈ selected') →
  filtered_df ev1 df selected = filtered_df ev2 df selected'.
Proof.
  intros Hdf Hsame. rewrite !filtered_literal by done. f_equal.
  apply list_filter_iff. intros r. split; intros Hsub v Hv; apply Hsub, Hsame, Hv.
Qed.

(** X11. On a frame whose skills cells are missing values or list literals,
    filtering the rows an earlier run returned, with the same selection,
    returns them all again. *)
Theorem filter_idempotent (ev1 ev2 : string → outcome pyval) (df rows : list df_row)
    (selected : list pyval) :
  Forall (λ r, literal_cell (skills_value r)) df →
  filtered_df ev1 df selected = Ret rows →
  filtered_df ev2 rows selected = Ret rows.
Proof.
  intros Hdf. rewrite (filtered_literal ev1) by done. intros [= <-].
  rewrite filtered_literal.
  - f_equal. apply filter_all. intros r Hr. by apply list_elem_of_filter in Hr as [Hr _].
  - rewrite Forall_forall in Hdf. apply Forall_forall. intros r Hr.
    apply Hdf. by apply list_elem_of_filter in Hr as [_ Hr].
Qed.

Lemma mjoin_fmap_VStr (ls : list (list string)) :
  mjoin ((fmap VStr) <$> ls) = VStr <$> mjoin ls.
Proof.
  induction ls as [ | l ls IH]; [done | ].
  change (mjoin (fmap VStr <$> l :: ls)) with ((VStr <$> l) ++ mjoin (fmap VStr <$> ls)).
  change (mjoin (l :: ls)) with (l ++ mjoin ls).
  by rewrite fmap_app, IH.
Qed.

(** X12. On a frame whose skills cells are missing values or list literals,
    the skill selector is built: its options are sorted and without
    repetition, they are exactly the items of the cells, and selecting any
    single option keeps at least one row, whatever [eval] does outside the
    list literals when the options are parsed and when the filter runs. *)
Theorem selector_options (ev1 ev2 : string → outcome pyval) (df : list df_row) :
  Forall (λ r, literal_cell (skills_value r)) df →
  ∃ parsed opts,
    skill_data ev1 df = Ret parsed
    ∧ all_skills_tab2 parsed = Some opts
    ∧ NoDup opts
    ∧ StronglySorted String.le opts
    ∧ (∀ s, s ∈ opts ↔ ∃ r, r ∈ df ∧ s ∈ literal_items (skills_value r))
    ∧ (∀ s, s ∈ opts → ∃ rows, filtered_df ev2 df [VStr s] = Ret rows ∧ rows ≠ []).
Proof.
  intros Hdf.
  assert ((λ r, parsed_skills ev1 (skills_value r)) <$> df
          = fmap VStr <$> ((λ r, literal_items (skills_value r)) <$> df)) as Hparsed.
  { rewrite <- list_fmap_compose. apply Forall_fmap_ext_1.
    eapply Forall_impl; [exact Hdf | ]. intros r Hr. by apply parsed_literal_cell. }
  assert (∀ s, s ∈ merge_sort String.le
                 (elements (list_to_set
                    (mjoin ((λ r, literal_items (skills_value r)) <$> df)) : gset string))
               ↔ ∃ r, r ∈ df ∧ s ∈ literal_items (skills_value r)) as Hmem.
  { intros s. rewrite merge_sort_Permutation, elem_of_elements, elem_of_list_to_set.
    rewrite list_elem_of_join. split.
    - intros (l & Hs & (r & -> & Hr)%list_elem_of_fmap). by exists r.
    - intros (r & Hr & Hs). eexists. split; [exact Hs | ].
      by apply (list_elem_of_fmap_2 (λ r, literal_items (skills_value r))). }
  do 2 eexists. split; [by rewrite skill_data_parsed, Hparsed | ].
  split.
  { unfold all_skills_tab2. rewrite mjoin_fmap_VStr.
    rewrite (proj2 (mapM_str_item _ _) eq_refl). reflexivity. }
  split; [rewrite merge_sort_Permutation; apply NoDup_elements | ].
  split; [apply (StronglySorted_merge_sort _) | ].
  split; [exact Hmem | ].
  intros s (r & Hr & Hs)%Hmem. eexists. split; [by apply filtered_literal | ].
  intros Hnil.
  assert (r ∈ filter (λ r, [VStr s] ⊆ VStr <$> literal_items (skills_value r)) df) as Hkept.
  { apply list_elem_of_filter. split; [ | done].
    intros v Hv. apply list_elem_of_singleton in Hv. subst. by apply elem_of_VStr_fmap. }
  rewrite Hnil in Hkept. by apply elem_of_nil in Hkept.
Qed.

(** * Examples *)

(** ** Text extraction *)

(** C7, at a concrete path: a file named .txt is refused. *)
Lemma load_resume_text_txt :
  py_lower (sample_suffix "/tmp/tmpk3x.txt") = ".txt"
  ∧ load_resume_text sample_suffix sample_loader sample_loader "/tmp/tmpk3x.txt"
    = Raise unsupported.
Proof.
  split; [reflexivity | ].
  apply (load_resume_text_by_extension sample_suffix sample_loader sample_loader
           "/tmp/tmpk3x.txt"); vm_compute; discriminate.
Defined.

Example load_resume_text_pdf_upper :
  load_resume_text sample_suffix sample_loader sample_loader "/tmp/CV.PDF"
  = Ret ("Jane Doe" +:+ blank_line +:+ "Python, SQL").
Proof. reflexivity. Qed.

(** ** Derived skills *)

(** C9, at a profile with two technical skills entries: the saved skills are
    those of the first entry. *)
Lemma skills_of_two_entries :
  technical_skills two_entries
  = TechList [sample_entry ["Python"; "SQL"]; sample_entry ["Rust"]]
  ∧ skills (convert two_entries)
    = elements (list_to_set (entry_lists (sample_entry ["Python"; "SQL"])) : gset string).
Proof.
  split; [reflexivity | ].
  apply (proj1 (skills_from_first_entry_only two_entries)
           (sample_entry ["Python"; "SQL"]) [sample_entry ["Rust"]]).
  reflexivity.
Defined.

(** C2, counterexample. With two technical skills entries, a language of
    the second entry is one of the profile's technical skills and yet is not
    among the saved skills, which are the two languages of the first entry. *)
Lemma later_entry_not_saved :
  bool_decide ("Rust" ∈ claimed_skill_sources (technical_skills two_entries)) = true
  ∧ bool_decide ("Rust" ∈ skills (convert two_entries)) = false
  ∧ bool_decide ("Python" ∈ skills (convert two_entries)) = true
  ∧ bool_decide ("SQL" ∈ skills (convert two_entries)) = true
  ∧ length (skills (convert two_entries)) = 2.
Proof. vm_compute. done. Qed.

(** ** The store *)

(** C8, at a store that holds the row of the profile being saved. *)
Lemma cancel_after_duplicate :
  save sample_numeric_like sample_scalar_str jane store_with_jane
  = Ret (AwaitingConfirmation (Some "a@x.com") jane, store_with_jane)
  ∧ save_then sample_numeric_like sample_scalar_str sample_reserialize
      (Some Cancel) jane store_with_jane
    = Ret (AwaitingConfirmation (Some "a@x.com") jane, store_with_jane).
Proof.
  split; [vm_compute; reflexivity | ].
  apply (cancel_keeps_store sample_numeric_like sample_scalar_str sample_reserialize
           jane jane (Some "a@x.com") store_with_jane store_with_jane).
  vm_compute. reflexivity.
Defined.

Example overwrite_replaces_row :
  save_then sample_numeric_like sample_scalar_str sample_reserialize
    (Some OverwriteExisting) jane (Some [to_row jane; to_row bob])
  = Ret (AwaitingConfirmation (Some "a@x.com") jane, Some [to_row bob; to_row jane]).
Proof. vm_compute. reflexivity. Qed.

(** C10, at a profile without email and a store that already holds a row
    without email. *)
Lemma anonymous_saved_again :
  email_id (profile anonymous) = None
  ∧ save sample_numeric_like sample_scalar_str anonymous (Some [to_row anonymous])
    = Ret (Inserted, Some [to_row anonymous; to_row anonymous])
  ∧ save sample_numeric_like sample_scalar_str anonymous
      (Some [to_row anonymous; to_row anonymous])
    = Ret (Inserted, Some [to_row anonymous; to_row anonymous; to_row anonymous]).
Proof.
  split; [reflexivity | ].
  pose proof (save_without_email_appends sample_numeric_like sample_scalar_str
                anonymous (Some [to_row anonymous]) eq_refl) as (H1 & H2 & _).
  split; [exact H1 | exact H2].
Defined.

(** Saving twice, at an email not seen before in a store holding another
    row. *)
Lemma jane_saved_twice :
  (email_id (profile jane) = Some "a@x.com"
   ∧ is_na "a@x.com" = false
   ∧ sample_numeric_like "a@x.com" = false
   ∧ bool_like "a@x.com" = false
   ∧ existing (frame sample_numeric_like sample_scalar_str [to_row bob]) (Some "a@x.com") = [])
  ∧ save sample_numeric_like sample_scalar_str jane (Some [to_row bob])
    = Ret (Inserted, Some [to_row bob; to_row jane])
  ∧ save sample_numeric_like sample_scalar_str jane (Some [to_row bob; to_row jane])
    = Ret (AwaitingConfirmation (Some "a@x.com") jane, Some [to_row bob; to_row jane]).
Proof.
  split; [vm_compute; done | ].
  pose proof (save_twice_keeps_one_row sample_numeric_like sample_scalar_str
                jane (Some [to_row bob]) "a@x.com" eq_refl eq_refl eq_refl eq_refl eq_refl)
    as (H1 & H2 & _).
  split; [exact H1 | exact H2].
Defined.

(** ** Parsing and filtering *)

(** C3, at the failing cell. The text of a tuple of two lists evaluates to
    a value that is not a list: the return of line 333 splits it at the commas
    with the brackets kept, where the claimed fallback, the one line 337 takes
    when the evaluation raises, removes the brackets at the two ends first. *)
Lemma tuple_cell_keeps_brackets :
  safe_eval_list sample_eval (CStr "['Python'], ['SQL']")
  = Ret [VStr "['Python']"; VStr "['SQL']"]
  ∧ claimed_parse sample_eval (CStr "['Python'], ['SQL']")
    = [VStr "'Python']"; VStr "['SQL'"].
Proof. vm_compute. done. Qed.

Example corrupt_cell_among_three :
  skill_data sample_eval three_rows
  = Ret [[VStr "Python"; VStr "SQL"]; [VStr "Python; SQL"]; [VStr "Go"]]
  ∧ filtered_df sample_eval three_rows [VStr "Go"] = Ret (drop 2 three_rows).
Proof. vm_compute. done. Qed.


Example filter_scenario :
  let rows := frame sample_numeric_like sample_scalar_str [to_row jane; to_row bob] in
  filtered_df sample_eval rows [] = Ret rows
  ∧ filtered_df sample_eval rows [VStr "Python"] = Ret (take 1 rows)
  ∧ filtered_df sample_eval rows [VStr "Python"; VStr "Go"] = Ret [].
Proof. vm_compute. done. Qed.

Example skills_round_trip_sample :
  safe_eval_list sample_eval (CStr (py_str_list ["C++"; "it's"; "R, S"]))
  = Ret [VStr "C++"; VStr "it's"; VStr "R, S"].
Proof. reflexivity. Qed.

(** ** Further examples *)

(** X2, at a store that holds the row of the profile being saved. *)
Lemma duplicate_report_example :
  save sample_numeric_like sample_scalar_str jane store_with_jane
  = Ret (AwaitingConfirmation (Some "a@x.com") jane, store_with_jane)
  ∧ ∃ e r,
      Some "a@x.com" = Some e ∧ email_id (profile jane) = Some e
      ∧ r ∈ default [] store_with_jane ∧ CsvRow.email_id r = e
      ∧ jane = jane ∧ store_with_jane = store_with_jane.
Proof.
  split; [vm_compute; reflexivity | ].
  apply (duplicate_report_is_sound sample_numeric_like sample_scalar_str
           jane jane (Some "a@x.com") store_with_jane store_with_jane).
  vm_compute. reflexivity.
Defined.

(** X3, at a file of two rows, the second one with the email being saved. *)
Lemma duplicate_behind_other_row :
  (is_na "a@x.com" = false ∧ sample_numeric_like "a@x.com" = false
   ∧ bool_like "a@x.com" = false)
  ∧ save sample_numeric_like sample_scalar_str jane (Some [to_row bob; to_row jane])
    = Ret (AwaitingConfirmation (Some "a@x.com") jane, Some [to_row bob; to_row jane]).
Proof.
  split; [done | ].
  apply (duplicate_is_reported sample_numeric_like sample_scalar_str
           jane [to_row bob; to_row jane] (to_row jane) "a@x.com");
    try reflexivity.
  rewrite !elem_of_cons. auto.
Defined.

(** X5, at a file of two rows, the first one replaced. *)
Lemma overwrite_then_save_example :
  ∃ rows',
    show_overwrite_dialog sample_numeric_like sample_scalar_str sample_reserialize
      (Some OverwriteExisting) (Some "a@x.com") jane (Some [to_row jane; to_row bob])
    = Ret (Some rows')
    ∧ to_row jane ∈ rows'
    ∧ save sample_numeric_like sample_scalar_str jane (Some rows')
      = Ret (AwaitingConfirmation (Some "a@x.com") jane, Some rows').
Proof.
  apply (overwrite_then_save_finds_row sample_numeric_like sample_scalar_str
           sample_reserialize jane [to_row jane; to_row bob] "a@x.com");
    reflexivity.
Defined.


Example convert_failure_is_raised :
  result (convert_click sample_suffix failing_loader failing_loader sample_llm
            "cv.pdf" "/tmp/tmpk3x" ∅) = Raised (OtherError "PdfReadError")
  ∧ trace (convert_click sample_suffix failing_loader failing_loader sample_llm
             "cv.pdf" "/tmp/tmpk3x" ∅) = [ExtractionFailed (OtherError "PdfReadError")]
  ∧ result (convert_click sample_suffix sample_loader sample_loader sample_llm
              "cv.pdf" "/tmp/tmpk3x" ∅) = Extracted jane.
Proof. vm_compute. done. Qed.

(** X8, at a PDF whose pages hold no text. *)
Lemma convert_blank_pdf :
  py_lower (sample_suffix ("/tmp/tmpk3x" +:+ sample_suffix "scan.pdf")) = ".pdf"
  ∧ result (convert_click sample_suffix blank_loader blank_loader sample_llm
              "scan.pdf" "/tmp/tmpk3x" ∅) = NoText
  ∧ trace (convert_click sample_suffix blank_loader blank_loader sample_llm
             "scan.pdf" "/tmp/tmpk3x" ∅) = [NoTextFound].
Proof.
  split; [reflexivity | ].
  apply (convert_without_text sample_suffix blank_loader blank_loader sample_llm
           "scan.pdf" "/tmp/tmpk3x" ∅ [mk_doc None; mk_doc (Some EmptyString)]).
  - left. split; reflexivity.
  - constructor; [by left | ]. constructor; [by right | constructor].
Defined.

(** X13, at a file with the rows of two saved profiles. *)
Lemma saved_skills_offered_example :
  Forall (λ d, sample_numeric_like (py_str_list (skills d)) = false) [jane; bob]
  ∧ ∃ parsed opts,
      skill_data sample_eval (frame sample_numeric_like sample_scalar_str
                                (to_row <$> [jane; bob])) = Ret parsed
      ∧ parsed = (λ d, VStr <$> skills d) <$> [jane; bob]
      ∧ all_skills_tab2 parsed = Some opts
      ∧ (∀ s, s ∈ opts ↔ ∃ d, d ∈ [jane; bob] ∧ s ∈ skills d).
Proof.
  assert (Forall (λ d, sample_numeric_like (py_str_list (skills d)) = false) [jane; bob])
    as Hnum by (repeat constructor).
  split; [exact Hnum | ].
  exact (saved_skills_are_offered sample_eval sample_numeric_like sample_scalar_str
           [jane; bob] Hnum).
Defined.

(** X14, at a text of two undefined names. *)
Lemma fallback_pieces_example :
  eval_cell sample_eval (CStr "Python , SQL,,") = Raise SyntaxError
  ∧ ∃ pieces,
      safe_eval_list sample_eval (CStr "Python , SQL,,") = Ret (VStr <$> pieces)
      ∧ Forall (λ piece, piece ≠ EmptyString ∧ py_strip piece = piece
                         ∧ contains_char ","%char piece = false) pieces.
Proof.
  split; [reflexivity | ].
  apply (fallback_pieces_clean sample_eval (CStr "Python , SQL,,")).
  - intros l. discriminate.
  - intros l. vm_compute. discriminate.
Defined.

(** X15, at the bare format with two skills. *)
Lemma legacy_cell_example :
  (Forall plain_skill ["Python"; "SQL"]
   ∧ py_eval sample_eval "Python, SQL" = Raise NameError)
  ∧ safe_eval_list sample_eval (CStr "Python, SQL") = Ret [VStr "Python"; VStr "SQL"].
Proof.
  assert (Forall plain_skill ["Python"; "SQL"]) as Hplain.
  { repeat constructor; discriminate. }
  split; [split; [exact Hplain | reflexivity] | ].
  apply (legacy_cell_parses sample_eval ["Python"; "SQL"] "Python, SQL" NameError Hplain).
  - by left.
  - reflexivity.
Defined.

(** X16, at a run of three saves, the first and the last of the same
    profile. *)
Lemma three_saves_example :
  length (email_rows "a@x.com" (default [] (None : store))) ≤ 1
  ∧ saves sample_numeric_like sample_scalar_str [jane; bob; jane] None
    = Ret (Some [to_row jane; to_row bob])
  ∧ ∃ st',
      saves sample_numeric_like sample_scalar_str [jane; bob; jane] None = Ret st'
      ∧ length (email_rows "a@x.com" (default [] st')) ≤ 1
      ∧ default [] (None : store) `prefix_of` default [] st'
      ∧ length (default [] st') ≤ length (default [] (None : store)) + length [jane; bob; jane].
Proof.
  assert (length (email_rows "a@x.com" (default [] (None : store))) ≤ 1) as Hone
    by (cbn; lia).
  split; [exact Hone | ]. split; [vm_compute; reflexivity | ].
  exact (saves_keep_one_row_per_email sample_numeric_like sample_scalar_str
           [jane; bob; jane] None "a@x.com" eq_refl eq_refl eq_refl Hone).
Defined.

(** X17, at a row appended behind another one. *)
Lemma saved_skills_read_back_example :
  sample_numeric_like (py_str_list (skills jane)) = false
  ∧ ∃ r, last (frame sample_numeric_like sample_scalar_str ([to_row bob] ++ [to_row jane]))
         = Some r
         ∧ source r = to_row jane
         ∧ safe_eval_list sample_eval (skills_value r) = Ret (VStr <$> skills jane).
Proof.
  split; [reflexivity | ].
  exact (saved_skills_read_back sample_eval sample_numeric_like sample_scalar_str
           jane [to_row bob] eq_refl).
Defined.

(** ** A duplicate the check misses *)

(** C1, at the failing input. The file holds a row whose email cell is N/A
    and the profile being saved has the email N/A: a row with the email of the
    profile exists, yet [save] reports [Inserted] and appends a second row.
    The same happens with the email 123, a column the reader takes for
    numbers. *)
Lemma stored_na_email_not_found :
  (CsvRow.email_id (to_row not_available) = "N/A"
   ∧ email_id (profile not_available) = Some "N/A")
  ∧ save sample_numeric_like sample_scalar_str not_available (Some [to_row not_available])
    = Ret (Inserted, Some [to_row not_available; to_row not_available])
  ∧ (CsvRow.email_id (to_row numeric_email) = "123"
     ∧ email_id (profile numeric_email) = Some "123")
  ∧ save sample_numeric_like sample_scalar_str numeric_email (Some [to_row numeric_email])
    = Ret (Inserted, Some [to_row numeric_email; to_row numeric_email]).
Proof. vm_compute. done. Qed.

(** C4, at the failing input. Saved twice where there is no file yet, a
    profile whose email is the text N/A is inserted by both saves and leaves
    two rows, since the reader hands the stored cell back as a missing value;
    so does a profile whose email is 123, read back as a number. *)
Lemma na_email_saved_twice :
  existing (frame sample_numeric_like sample_scalar_str []) (Some "N/A") = []
  ∧ (r ← save sample_numeric_like sample_scalar_str not_available None;
     save sample_numeric_like sample_scalar_str not_available r.2)
    = Ret (Inserted, Some [to_row not_available; to_row not_available])
  ∧ (r ← save sample_numeric_like sample_scalar_str numeric_email None;
     save sample_numeric_like sample_scalar_str numeric_email r.2)
    = Ret (Inserted, Some [to_row numeric_email; to_row numeric_email]).
Proof. vm_compute. done. Qed.

(** ** Saving and filtering, further examples *)

(** X1, at a save behind another row. *)
Lemma save_keeps_rows_example :
  save sample_numeric_like sample_scalar_str jane (Some [to_row bob])
  = Ret (Inserted, Some [to_row bob; to_row jane])
  ∧ ∃ rows',
      Some [to_row bob; to_row jane] = Some rows'
      ∧ default [] (Some [to_row bob]) `prefix_of` rows'
      ∧ length rows' ≤ S (length (default [] (Some [to_row bob]))).
Proof.
  split; [vm_compute; reflexivity | ].
  apply (save_keeps_rows sample_numeric_like sample_scalar_str jane
           (Some [to_row bob]) (Some [to_row bob; to_row jane]) Inserted).
  vm_compute. reflexivity.
Defined.

Lemma literal_rows_literal : Forall (λ r, literal_cell (skills_value r)) literal_rows.
Proof.
  constructor; [right; by exists "['Python', 'SQL']", ["Python"; "SQL"] | ].
  constructor; [by left | ].
  constructor; [right; by exists "['Go', 'SQL']", ["Go"; "SQL"] | constructor].
Qed.

(** X9, at the three rows, the two runs with different evaluations. *)
Lemma filter_narrows_example :
  ∃ rows rows',
    filtered_df sample_eval literal_rows [VStr "SQL"] = Ret rows
    ∧ filtered_df other_eval literal_rows ([VStr "SQL"] ++ [VStr "Go"]) = Ret rows'
    ∧ rows `sublist_of` literal_rows
    ∧ rows' `sublist_of` rows
    ∧ length rows' ≤ length rows.
Proof.
  exact (filter_narrows sample_eval other_eval literal_rows [VStr "SQL"] [VStr "Go"]
           literal_rows_literal).
Defined.

Example filter_narrows_rows :
  filtered_df sample_eval literal_rows [VStr "SQL"]
  = Ret [mk_df_row (to_row jane) (CStr "a@x.com") (CStr "['Python', 'SQL']");
         mk_df_row (to_row bob) (CStr "c@x.com") (CStr "['Go', 'SQL']")]
  ∧ filtered_df other_eval literal_rows [VStr "SQL"; VStr "Go"]
    = Ret [mk_df_row (to_row bob) (CStr "c@x.com") (CStr "['Go', 'SQL']")].
Proof. vm_compute. done. Qed.

(** X10, at two selections with the same members. *)
Lemma filter_order_example :
  filtered_df sample_eval literal_rows [VStr "Go"; VStr "SQL"]
  = filtered_df other_eval literal_rows [VStr "SQL"; VStr "Go"; VStr "SQL"].
Proof.
  apply (filter_ignores_order sample_eval other_eval literal_rows _ _ literal_rows_literal).
  intros v. rewrite !elem_of_cons, elem_of_nil. tauto.
Defined.

(** X11, at the rows kept for one selected skill. *)
Lemma filter_again_example :
  filtered_df sample_eval literal_rows [VStr "Go"] = Ret (drop 2 literal_rows)
  ∧ filtered_df other_eval (drop 2 literal_rows) [VStr "Go"] = Ret (drop 2 literal_rows).
Proof.
  split; [vm_compute; reflexivity | ].
  apply (filter_idempotent sample_eval other_eval literal_rows (drop 2 literal_rows)
           [VStr "Go"] literal_rows_literal).
  vm_compute. reflexivity.
Defined.

(** X12, at the three rows. *)
Lemma selector_options_example :
  ∃ parsed opts,
    skill_data sample_eval literal_rows = Ret parsed
    ∧ all_skills_tab2 parsed = Some opts
    ∧ NoDup opts
    ∧ StronglySorted String.le opts
    ∧ (∀ s, s ∈ opts ↔ ∃ r, r ∈ literal_rows ∧ s ∈ literal_items (skills_value r))
    ∧ (∀ s, s ∈ opts →
         ∃ rows, filtered_df other_eval literal_rows [VStr s] = Ret rows ∧ rows ≠ []).
Proof.
  exact (selector_options sample_eval other_eval literal_rows literal_rows_literal).
Defined.

Example selector_options_values :
  (parsed ← match skill_data sample_eval literal_rows with
            | Ret parsed => Some parsed
            | Raise _ => None
            end;
   all_skills_tab2 parsed)
  = Some ["Go"; "Python"; "SQL"].
Proof. vm_compute. reflexivity. Qed.
